(** * pytc: the pytest argument codec of [src/extension.ts]

    The extension keeps the workspace setting [python.testing.pytestArgs]
    (a list of command-line tokens) in step with a form.  Two methods of
    [PytestConfigViewProvider] carry the logic:

    - [getCurrentConfig] parses the stored tokens into a [PytestConfig];
    - [updateWorkspaceConfig] rebuilds the token list from a [PytestConfig]
      and writes it back.

    The development embeds both, together with the JavaScript string
    primitives they rely on, and states the codec properties about them. *)

From Stdlib Require Import String Ascii List Bool Arith Lia Permutation.
From Stdlib Require Import ZArith DecimalString DecimalNat.
From Equations Require Import Equations.
Unset Equations With Funext.
Import ListNotations.
Open Scope string_scope.
Open Scope list_scope.

(* ================================================================== *)
(** ** JavaScript string primitives used by the code *)

Module JsString.

(** [s.startsWith(p)] *)
Fixpoint startsWith (s p : string) : bool :=
  match p with
  | EmptyString => true
  | String a p' =>
      match s with
      | EmptyString => false
      | String b s' => Ascii.eqb b a && startsWith s' p'
      end
  end.

(** [s.split(sep)] for a one-character separator: the pieces between
    successive occurrences of [sep]; never the empty array. *)
Fixpoint split (sep : ascii) (s : string) : list string :=
  match s with
  | EmptyString => [EmptyString]
  | String ch s' =>
      if Ascii.eqb ch sep then EmptyString :: split sep s'
      else match split sep s' with
           | piece :: pieces => String ch piece :: pieces
           | [] => [String ch EmptyString]
           end
  end.

(** [sep] occurs in [s] *)
Fixpoint contains (sep : ascii) (s : string) : bool :=
  match s with
  | EmptyString => false
  | String ch s' => Ascii.eqb ch sep || contains sep s'
  end.

(** truthiness of a possibly undefined string: defined and non-empty *)
Definition truthy (o : option string) : bool :=
  match o with
  | Some (String _ _) => true
  | _ => false
  end.

End JsString.

(** truthiness of a possibly undefined boolean *)
Definition truthy_bool (o : option bool) : bool :=
  match o with
  | Some true => true
  | _ => false
  end.

(* ================================================================== *)
(** ** The data model: [interface PytestConfig] *)

(** Every member of the interface is optional ([tb?: string], ...), so
    each field is an [option]; [None] is JavaScript's [undefined]. *)
Record PytestConfig : Type := mkPytestConfig {
  tb : option string;
  numprocesses : option string;
  verbosity : option string;
  captureOutput : option bool;
  headed : option bool;
  delve : option bool;
  browser : option string;
  slowmo : option bool;
  tracing : option string;
  video : option string;
  showlocals : option bool
}.

(** The object literal [{}]. *)
Definition emptyConfig : PytestConfig :=
  mkPytestConfig None None None None None None None None None None None.

(** Field assignments [config.f = x]. *)
Definition set_tb (x : option string) (c : PytestConfig) : PytestConfig :=
  mkPytestConfig x (numprocesses c) (verbosity c) (captureOutput c) (headed c)
    (delve c) (browser c) (slowmo c) (tracing c) (video c) (showlocals c).
Definition set_numprocesses (x : option string) (c : PytestConfig) : PytestConfig :=
  mkPytestConfig (tb c) x (verbosity c) (captureOutput c) (headed c)
    (delve c) (browser c) (slowmo c) (tracing c) (video c) (showlocals c).
Definition set_verbosity (x : option string) (c : PytestConfig) : PytestConfig :=
  mkPytestConfig (tb c) (numprocesses c) x (captureOutput c) (headed c)
    (delve c) (browser c) (slowmo c) (tracing c) (video c) (showlocals c).
Definition set_captureOutput (x : option bool) (c : PytestConfig) : PytestConfig :=
  mkPytestConfig (tb c) (numprocesses c) (verbosity c) x (headed c)
    (delve c) (browser c) (slowmo c) (tracing c) (video c) (showlocals c).
Definition set_headed (x : option bool) (c : PytestConfig) : PytestConfig :=
  mkPytestConfig (tb c) (numprocesses c) (verbosity c) (captureOutput c) x
    (delve c) (browser c) (slowmo c) (tracing c) (video c) (showlocals c).
Definition set_delve (x : option bool) (c : PytestConfig) : PytestConfig :=
  mkPytestConfig (tb c) (numprocesses c) (verbosity c) (captureOutput c) (headed c)
    x (browser c) (slowmo c) (tracing c) (video c) (showlocals c).
Definition set_browser (x : option string) (c : PytestConfig) : PytestConfig :=
  mkPytestConfig (tb c) (numprocesses c) (verbosity c) (captureOutput c) (headed c)
    (delve c) x (slowmo c) (tracing c) (video c) (showlocals c).
Definition set_slowmo (x : option bool) (c : PytestConfig) : PytestConfig :=
  mkPytestConfig (tb c) (numprocesses c) (verbosity c) (captureOutput c) (headed c)
    (delve c) (browser c) x (tracing c) (video c) (showlocals c).
Definition set_tracing (x : option string) (c : PytestConfig) : PytestConfig :=
  mkPytestConfig (tb c) (numprocesses c) (verbosity c) (captureOutput c) (headed c)
    (delve c) (browser c) (slowmo c) x (video c) (showlocals c).
Definition set_video (x : option string) (c : PytestConfig) : PytestConfig :=
  mkPytestConfig (tb c) (numprocesses c) (verbosity c) (captureOutput c) (headed c)
    (delve c) (browser c) (slowmo c) (tracing c) x (showlocals c).
Definition set_showlocals (x : option bool) (c : PytestConfig) : PytestConfig :=
  mkPytestConfig (tb c) (numprocesses c) (verbosity c) (captureOutput c) (headed c)
    (delve c) (browser c) (slowmo c) (tracing c) (video c) x.

(* ================================================================== *)
(** ** Decoding: the parse loop of [getCurrentConfig] *)

Import JsString.

(** [arg.split('=')[1]]: the second piece of the split, [undefined] when
    the array has a single element. *)
Definition split_eq_1 (arg : string) : option string :=
  nth_error (split "=" arg) 1.

(** The body of the [for] loop: one pass through the [if]/[else if] chain
    for the token [arg]. *)
Definition parse_arg (config : PytestConfig) (arg : string) : PytestConfig :=
  if startsWith arg "--tb=" then set_tb (split_eq_1 arg) config
  else if startsWith arg "--numprocesses=" then set_numprocesses (split_eq_1 arg) config
  else if arg =? "-q" then set_verbosity (Some "quiet") config
  else if arg =? "-v" then set_verbosity (Some "verbose") config
  else if arg =? "-vv" then set_verbosity (Some "more-verbose") config
  else if arg =? "-vvv" then set_verbosity (Some "very-verbose") config
  else if arg =? "-s" then set_captureOutput (Some true) config
  else if arg =? "--showlocals" then set_showlocals (Some true) config
  else if arg =? "--headed" then set_headed (Some true) config
  else if arg =? "--delve=1" then set_delve (Some true) config
  else if startsWith arg "--browser=" then set_browser (split_eq_1 arg) config
  else if arg =? "--slowmo" then set_slowmo (Some true) config
  else if startsWith arg "--tracing=" then set_tracing (split_eq_1 arg) config
  else if startsWith arg "--video=" then set_video (split_eq_1 arg) config
  else config.

(** [for (let i = 0; i < pytestArgs.length; i++) { ... }], started in the
    state [config]. *)
Fixpoint decode_from (config : PytestConfig) (pytestArgs : list string)
  : PytestConfig :=
  match pytestArgs with
  | [] => config
  | arg :: rest => decode_from (parse_arg config arg) rest
  end.

(** [const config = {}; for ... ; return config]. *)
Definition decode (pytestArgs : list string) : PytestConfig :=
  decode_from emptyConfig pytestArgs.

(* ================================================================== *)
(** ** Encoding: the construction of [newArgs] in [updateWorkspaceConfig] *)

(** [if (config.f && config.f !== 'none') newArgs.push(`<flag>${config.f}`)] *)
Definition push_param (flag : string) (f : option string)
    (newArgs : list string) : list string :=
  match f with
  | Some v =>
      if truthy f && negb (v =? "none") then newArgs ++ [(flag ++ v)%string]
      else newArgs
  | None => newArgs
  end.

(** [if (config.verbosity) switch (config.verbosity) { case ...: push }] *)
Definition push_verbosity (f : option string) (newArgs : list string)
  : list string :=
  match f with
  | Some v =>
      if truthy f then
        if v =? "quiet" then newArgs ++ ["-q"]
        else if v =? "verbose" then newArgs ++ ["-v"]
        else if v =? "more-verbose" then newArgs ++ ["-vv"]
        else if v =? "very-verbose" then newArgs ++ ["-vvv"]
        else newArgs
      else newArgs
  | None => newArgs
  end.

(** [if (config.f) newArgs.push(flag)] *)
Definition push_flag (flag : string) (f : option bool)
    (newArgs : list string) : list string :=
  if truthy_bool f then newArgs ++ [flag] else newArgs.

(** The statements of the [try] block up to the store update, in order,
    threading the array [newArgs]. *)
Definition encode (config : PytestConfig) : list string :=
  let newArgs := [] in
  let newArgs := push_param "--tb=" (tb config) newArgs in
  let newArgs := push_param "--numprocesses=" (numprocesses config) newArgs in
  let newArgs := push_verbosity (verbosity config) newArgs in
  let newArgs := push_flag "-s" (captureOutput config) newArgs in
  let newArgs := push_flag "--showlocals" (showlocals config) newArgs in
  let newArgs := push_flag "--headed" (headed config) newArgs in
  let newArgs := push_flag "--delve=1" (delve config) newArgs in
  let newArgs := push_param "--browser=" (browser config) newArgs in
  let newArgs := push_flag "--slowmo" (slowmo config) newArgs in
  let newArgs := push_param "--tracing=" (tracing config) newArgs in
  let newArgs := push_param "--video=" (video config) newArgs in
  newArgs.

(* ================================================================== *)
(** ** The two methods, with the host they talk to *)

(** A value found in an array of the JSON settings file.  The annotation
    [string[]] on [pytestArgs] is not checked when the program runs. *)
Inductive JsValue : Type :=
| JString (s : string)
| JNumber (n : nat)
| JBool (b : bool)
| JNull.

Inductive JsError : Type :=
| TypeError (message : string)
| HostError (message : string).

(** [`${error}`] *)
Definition error_toString (e : JsError) : string :=
  match e with
  | TypeError m => ("TypeError: " ++ m)%string
  | HostError m => ("Error: " ++ m)%string
  end.

(** How a block of statements ends: with a value, or with an exception. *)
Inductive completion (A : Type) : Type :=
| Normal (a : A)
| Throw (e : JsError).
Arguments Normal {A} a.
Arguments Throw {A} e.

Definition bind {A B} (m : completion A) (k : A -> completion B)
  : completion B :=
  match m with
  | Normal a => k a
  | Throw e => Throw e
  end.

Notation "x <- m ;; k" := (bind m (fun x => k))
  (at level 61, m at next level, right associativity).

(** What the provider sees of VS Code: its workspace folder, if any, and
    the workspace setting [python.testing.pytestArgs], if set. *)
Record Host : Type := mkHost {
  workspaceFolder : option string;
  pytestArgs : option (list JsValue)
}.

Inductive Notification : Type :=
| ErrorMessage (text : string)
| InformationMessage (text : string).

(** The loop of [getCurrentConfig] over the values really stored.  The
    first test of the chain calls the method [arg.startsWith]; a value that
    is not a string has no such method and the call throws. *)
Fixpoint parse_loop (config : PytestConfig) (args : list JsValue)
  : completion PytestConfig :=
  match args with
  | [] => Normal config
  | JString arg :: rest => parse_loop (parse_arg config arg) rest
  | JNull :: _ =>
      Throw (TypeError "Cannot read properties of null (reading 'startsWith')")
  | _ :: _ => Throw (TypeError "arg.startsWith is not a function")
  end.

Definition getCurrentConfig (h : Host) : completion PytestConfig :=
  match workspaceFolder h with
  | None => Normal emptyConfig
  | Some _ =>
      (* workspaceConfig.get('pytestArgs') || [] *)
      let args := match pytestArgs h with Some a => a | None => [] end in
      parse_loop emptyConfig args
  end.

(** [updateWorkspaceConfig(message.config)].  The argument is what the
    webview posted; reading a property of [undefined] throws.  [update] is
    the host's [workspaceConfig.update('pytestArgs', newArgs, Workspace)],
    which may reject.  The result is the host afterwards and the message
    shown to the user. *)
Definition updateWorkspaceConfig
    (update : list string -> Host -> completion Host)
    (h : Host) (config : option PytestConfig) : Host * Notification :=
  match workspaceFolder h with
  | None => (h, ErrorMessage "No workspace folder found")
  | Some _ =>
      let try_block :=
        newArgs <- match config with
                   | Some c => Normal (encode c)
                   | None => Throw (TypeError
                       "Cannot read properties of undefined (reading 'tb')")
                   end ;;
        h' <- update newArgs h ;;
        Normal (h', InformationMessage
                      "Pytest configuration updated successfully") in
      match try_block with
      | Normal r => r
      | Throw error =>
          (h, ErrorMessage ("Failed to update pytest configuration: "
                            ++ error_toString error)%string)
      end
  end.

(** A host whose update always succeeds: it stores the array. *)
Definition store_pytestArgs (newArgs : list string) (h : Host)
  : completion Host :=
  Normal (mkHost (workspaceFolder h) (Some (map JString newArgs))).

(* ================================================================== *)
(** ** Vocabulary of the specification *)

(** *** Which field a token belongs to, as the decoder classifies it *)

Definition is_tb (t : string) : bool := startsWith t "--tb=".
Definition is_numprocesses (t : string) : bool := startsWith t "--numprocesses=".
Definition is_browser (t : string) : bool := startsWith t "--browser=".
Definition is_tracing (t : string) : bool := startsWith t "--tracing=".
Definition is_video (t : string) : bool := startsWith t "--video=".

(** The verbosity a flag stands for. *)
Definition verbosity_of_flag (t : string) : option string :=
  if t =? "-q" then Some "quiet"
  else if t =? "-v" then Some "verbose"
  else if t =? "-vv" then Some "more-verbose"
  else if t =? "-vvv" then Some "very-verbose"
  else None.

Definition is_verbosity_flag (t : string) : bool :=
  match verbosity_of_flag t with Some _ => true | None => false end.

Definition is_flag (flag t : string) : bool := t =? flag.

(** A token the decoder acts on. *)
Definition recognized (t : string) : bool :=
  is_tb t || is_numprocesses t || is_verbosity_flag t
  || is_flag "-s" t || is_flag "--showlocals" t || is_flag "--headed" t
  || is_flag "--delve=1" t || is_browser t || is_flag "--slowmo" t
  || is_tracing t || is_video t.

(** The last element of [l] that satisfies [p]. *)
Fixpoint last_match {A} (p : A -> bool) (l : list A) : option A :=
  match l with
  | [] => None
  | x :: rest =>
      match last_match p rest with
      | Some y => Some y
      | None => if p x then Some x else None
      end
  end.

(** *** The token each field contributes, in the words of the spec *)

(** "present and not the sentinel -> append [<flag><value>]" *)
Definition param_token (flag : string) (f : option string) : option string :=
  match f with
  | Some v =>
      if (v =? "") || (v =? "none") then None else Some (flag ++ v)%string
  | None => None
  end.

(** "verbosity present -> append the corresponding single flag" *)
Definition verbosity_token (f : option string) : option string :=
  match f with
  | Some v =>
      if v =? "quiet" then Some "-q"
      else if v =? "verbose" then Some "-v"
      else if v =? "more-verbose" then Some "-vv"
      else if v =? "very-verbose" then Some "-vvv"
      else None
  | None => None
  end.

(** "true -> append the switch" *)
Definition flag_token (flag : string) (f : option bool) : option string :=
  if truthy_bool f then Some flag else None.

(** The eleven checks in their fixed order. *)
Definition field_tokens (c : PytestConfig) : list (option string) :=
  [ param_token "--tb=" (tb c);
    param_token "--numprocesses=" (numprocesses c);
    verbosity_token (verbosity c);
    flag_token "-s" (captureOutput c);
    flag_token "--showlocals" (showlocals c);
    flag_token "--headed" (headed c);
    flag_token "--delve=1" (delve c);
    param_token "--browser=" (browser c);
    flag_token "--slowmo" (slowmo c);
    param_token "--tracing=" (tracing c);
    param_token "--video=" (video c) ].

(** Keep the tokens that are there, in order. *)
Fixpoint cat_options {A} (l : list (option A)) : list A :=
  match l with
  | [] => []
  | Some x :: rest => x :: cat_options rest
  | None :: rest => cat_options rest
  end.

Definition encode_spec (c : PytestConfig) : list string :=
  cat_options (field_tokens c).

(** What a recogniser [p] finds in one contribution. *)
Definition keep (p : string -> bool) (o : option string) : option string :=
  match o with
  | Some t => if p t then Some t else None
  | None => None
  end.

(** *** Zero state, sentinels, documented domains *)

(** The value of an optional string field that stands for "no token":
    absent, the ['none'] entry of the form's select boxes, or the empty
    string (the form's value of "Default" verbosity; falsy). *)
Definition is_sentinel (f : option string) : bool :=
  match f with
  | None => true
  | Some v => (v =? "none") || (v =? "")
  end.

(** Every optional field absent, every switch off. *)
Definition is_zero (c : PytestConfig) : bool :=
  match tb c, numprocesses c, verbosity c, browser c, tracing c, video c with
  | None, None, None, None, None, None =>
      negb (truthy_bool (captureOutput c)) && negb (truthy_bool (showlocals c))
      && negb (truthy_bool (headed c)) && negb (truthy_bool (delve c))
      && negb (truthy_bool (slowmo c))
  | _, _, _, _, _, _ => false
  end.

Definition one_of (domain : list string) (v : string) : bool :=
  existsb (String.eqb v) domain.

Definition is_digit (ch : ascii) : bool :=
  ((48 <=? nat_of_ascii ch) && (nat_of_ascii ch <=? 57))%nat.

Fixpoint all_digits (s : string) : bool :=
  match s with
  | EmptyString => true
  | String ch s' => is_digit ch && all_digits s'
  end.

(** "auto" or a non-negative integer as text *)
Definition numprocesses_domain (v : string) : bool :=
  (v =? "auto") || (negb (v =? "") && all_digits v).

Definition tb_domain := one_of ["auto"; "long"; "short"; "native"; "no"].
Definition verbosity_domain :=
  one_of ["quiet"; "verbose"; "more-verbose"; "very-verbose"].
Definition browser_domain := one_of ["chromium"; "firefox"; "webkit"].
Definition tracing_domain := one_of ["on"; "off"; "retain-on-failure"].
Definition video_domain := one_of ["on"; "off"; "retain-on-failure"].

(** A value that the token syntax can carry: not empty, not the sentinel,
    and free of ['=']. *)
Definition plain (v : string) : bool :=
  negb (v =? "") && negb (v =? "none") && negb (contains "=" v).

(** Absent, or a value of the domain. *)
Definition absent_or (domain : string -> bool) (f : option string) : bool :=
  match f with
  | None => true
  | Some v => domain v
  end.

(** Absent-field-normalized: every optional field is absent or holds a
    value of its documented domain (so none holds ['none']). *)
Definition normalized (c : PytestConfig) : bool :=
  absent_or tb_domain (tb c)
  && absent_or numprocesses_domain (numprocesses c)
  && absent_or verbosity_domain (verbosity c)
  && absent_or browser_domain (browser c)
  && absent_or tracing_domain (tracing c)
  && absent_or video_domain (video c).

(** A switch as the decoder leaves it: never assigned, or [true]. *)
Definition unset_or_true (f : option bool) : bool :=
  match f with
  | Some false => false
  | _ => true
  end.

Definition switches_unset_or_true (c : PytestConfig) : bool :=
  unset_or_true (captureOutput c) && unset_or_true (showlocals c)
  && unset_or_true (headed c) && unset_or_true (delve c)
  && unset_or_true (slowmo c).

(** Semantic equality of configurations: the optional fields agree, and
    each switch is on in both or off in both (an unassigned switch is off:
    every reader of a switch tests its truthiness). *)
Definition config_equiv (a b : PytestConfig) : Prop :=
  tb a = tb b /\ numprocesses a = numprocesses b
  /\ verbosity a = verbosity b /\ browser a = browser b
  /\ tracing a = tracing b /\ video a = video b
  /\ truthy_bool (captureOutput a) = truthy_bool (captureOutput b)
  /\ truthy_bool (showlocals a) = truthy_bool (showlocals b)
  /\ truthy_bool (headed a) = truthy_bool (headed b)
  /\ truthy_bool (delve a) = truthy_bool (delve b)
  /\ truthy_bool (slowmo a) = truthy_bool (slowmo b).

(** *** Histories: the order in which the fields of a record were set *)

Inductive assignment : Type :=
| SetTb (x : option string)
| SetNumprocesses (x : option string)
| SetVerbosity (x : option string)
| SetCaptureOutput (x : option bool)
| SetHeaded (x : option bool)
| SetDelve (x : option bool)
| SetBrowser (x : option string)
| SetSlowmo (x : option bool)
| SetTracing (x : option string)
| SetVideo (x : option string)
| SetShowlocals (x : option bool).

(** The field an assignment writes, by its position in the interface. *)
Definition field_of (a : assignment) : nat :=
  match a with
  | SetTb _ => 0 | SetNumprocesses _ => 1 | SetVerbosity _ => 2
  | SetCaptureOutput _ => 3 | SetHeaded _ => 4 | SetDelve _ => 5
  | SetBrowser _ => 6 | SetSlowmo _ => 7 | SetTracing _ => 8
  | SetVideo _ => 9 | SetShowlocals _ => 10
  end.

Definition assign (c : PytestConfig) (a : assignment) : PytestConfig :=
  match a with
  | SetTb x => set_tb x c
  | SetNumprocesses x => set_numprocesses x c
  | SetVerbosity x => set_verbosity x c
  | SetCaptureOutput x => set_captureOutput x c
  | SetHeaded x => set_headed x c
  | SetDelve x => set_delve x c
  | SetBrowser x => set_browser x c
  | SetSlowmo x => set_slowmo x c
  | SetTracing x => set_tracing x c
  | SetVideo x => set_video x c
  | SetShowlocals x => set_showlocals x c
  end.

(** The record obtained from [c] by a sequence of assignments. *)
Definition build_from (c : PytestConfig) (history : list assignment)
  : PytestConfig :=
  fold_left assign history c.

Definition build (history : list assignment) : PytestConfig :=
  build_from emptyConfig history.

(** Scenario 1 built by assigning the switch first and the traceback style
    last. *)
Definition form_history : list assignment :=
  [SetCaptureOutput (Some true); SetVerbosity (Some "verbose");
   SetTb (Some "short")].

(** *** Sample records *)

(** A record as the form posts it: every member assigned, the switches
    that are off holding [false]. *)
Definition form_config : PytestConfig :=
  mkPytestConfig (Some "short") (Some "12") (Some "more-verbose")
    (Some false) (Some true) (Some false) (Some "webkit") (Some false)
    (Some "retain-on-failure") (Some "on") (Some false).

(** [{tb: 'short', verbosity: 'verbose', captureOutput: true}] *)
Definition scenario1_config : PytestConfig :=
  mkPytestConfig (Some "short") None (Some "verbose") (Some true) None None
    None None None None None.

(** [{numprocesses: 'auto', browser: 'chromium', headed: true}] *)
Definition scenario2_config : PytestConfig :=
  mkPytestConfig None (Some "auto") None None (Some true) None
    (Some "chromium") None None None None.

(** What the form posts when nothing is selected: ['none'] in the select
    boxes, [''] for "Default" verbosity, [false] for the check boxes. *)
Definition posted_defaults : PytestConfig :=
  mkPytestConfig (Some "none") (Some "none") (Some "") (Some false)
    (Some false) (Some false) (Some "none") (Some false) (Some "none")
    (Some "none") (Some false).


(* ================================================================== *)
(** ** The rest of the provider: process counts, form, activation *)

(** *** [getProcessOptions] *)

(** [n.toString()] for a non-negative integer: its decimal digits. *)
Definition toString (n : nat) : string :=
  NilEmpty.string_of_uint (Nat.to_uint n).

(** The white space [parseInt] skips, as far as one-byte characters go:
    tab, line feed, vertical tab, form feed, carriage return, space. *)
Definition is_whitespace (ch : ascii) : bool :=
  match nat_of_ascii ch with
  | 9 | 10 | 11 | 12 | 13 | 32 => true
  | _ => false
  end.

Fixpoint trimStart (s : string) : string :=
  match s with
  | String ch s' => if is_whitespace ch then trimStart s' else s
  | EmptyString => EmptyString
  end.

(** The value of [ch] as a digit of base [radix]: [0]-[9], then the
    letters in either case. *)
Definition digit_value (radix : nat) (ch : ascii) : option nat :=
  let n := nat_of_ascii ch in
  let v := if ((48 <=? n) && (n <=? 57))%nat then Some (n - 48)
           else if ((97 <=? n) && (n <=? 122))%nat then Some (n - 87)
           else if ((65 <=? n) && (n <=? 90))%nat then Some (n - 55)
           else None in
  match v with
  | Some d => if (d <? radix)%nat then Some d else None
  | None => None
  end.

(** The number written by the longest run of digits at the start of [s];
    [acc] is what was read so far, [None] while no digit was. *)
Fixpoint parse_digits (radix : nat) (s : string) (acc : option nat)
  : option nat :=
  match s with
  | String ch s' =>
      match digit_value radix ch with
      | Some d =>
          parse_digits radix s'
            (Some (radix * match acc with Some a => a | None => 0 end + d))
      | None => acc
      end
  | EmptyString => acc
  end.

(** [parseInt(s)], no radix given: skip leading white space, take a sign,
    take [0x] or [0X] as the mark of base 16, read the digits that follow.
    [None] is [NaN].  The result is exact below 2^53, far above any core
    count. *)
Definition parseInt (s : string) : option Z :=
  let s := trimStart s in
  let '(negative, s) :=
    match s with
    | String "-" s' => (true, s')
    | String "+" s' => (false, s')
    | _ => (false, s)
    end in
  let '(radix, s) :=
    match s with
    | String "0" (String "x" s') => (16, s')
    | String "0" (String "X" s') => (16, s')
    | _ => (10, s)
    end in
  match parse_digits radix s None with
  | Some n => Some (if negative then Z.opp (Z.of_nat n) else Z.of_nat n)
  | None => None
  end.

(** [for (let i = 2; i <= cpuCount; i += 2) options.push(i.toString())],
    entered with the counter at [i]. *)
Equations? push_even_options (cpuCount i : nat) (options : list string)
  : list string by wf (cpuCount + 1 - i) lt :=
  push_even_options cpuCount i options with le_lt_dec i cpuCount => {
    | left _le :=
        push_even_options cpuCount (i + 2) (options ++ [toString i]);
    | right _ := options }.
Proof. lia. Qed.

(** [getProcessOptions()]; [cpuCount] is [os.cpus().length].  Reading
    [options[options.length - 1]] of an empty array gives [undefined],
    which [parseInt] turns into [NaN]; [NaN < cpuCount] is false. *)
Definition getProcessOptions (cpuCount : nat) : list string :=
  let options := ["none"; "auto"; "1"] in
  if (2 <? cpuCount)%nat then
    let options := push_even_options cpuCount 2 options in
    if negb (cpuCount mod 2 =? 0)%nat && (2 <? cpuCount)%nat then
      let lastOption :=
        match nth_error options (length options - 1) with
        | Some o => parseInt o
        | None => None
        end in
      match lastOption with
      | Some n =>
          if (n <? Z.of_nat cpuCount)%Z then options ++ [toString cpuCount]
          else options
      | None => options
      end
    else options
  else options.

(** The even numbers [i], [i + 2], ... : [n] of them. *)
Fixpoint evens (i n : nat) : list nat :=
  match n with
  | 0 => []
  | S n' => i :: evens (i + 2) n'
  end.

(** The process counts the form offers on a machine with [cpuCount] cores. *)
Definition offered_counts (cpuCount : nat) : list nat :=
  1 :: (if (2 <? cpuCount)%nat
        then evens 2 (cpuCount / 2)
             ++ (if Nat.odd cpuCount then [cpuCount] else [])
        else []).

(** An optional value without ['=']. *)
Definition eq_free (f : option string) : bool :=
  match f with
  | Some v => negb (contains "=" v)
  | None => true
  end.

(** [typeof v === 'string'] *)
Definition is_JString (v : JsValue) : bool :=
  match v with
  | JString _ => true
  | _ => false
  end.

(** *** The form of the webview: [_getHtmlForWebview] and the script *)

(** [x === undefined] *)
Definition is_undefined {A} (o : option A) : bool :=
  match o with
  | None => true
  | Some _ => false
  end.

(** [x === 'literal'] for a possibly undefined string [x] *)
Definition strict_eq (o : option string) (s : string) : bool :=
  match o with
  | Some v => v =? s
  | None => false
  end.

(** One [<option value="..." selected?>] element: the value attribute and
    whether the [selected] attribute was written. *)
Definition html_option : Type := (string * bool)%type.

(** The controls of the document, in the order of the template. *)
Record Html : Type := mkHtml {
  select_tb : list html_option;
  select_numprocesses : list html_option;
  select_verbosity : list html_option;
  checkbox_captureOutput : bool;
  checkbox_showlocals : bool;
  select_browser : list html_option;
  checkbox_headed : bool;
  checkbox_slowmo : bool;
  select_tracing : list html_option;
  select_video : list html_option;
  checkbox_delve : bool
}.

(** The template, for the configuration [currentConfig]; [cpuCount] is
    [os.cpus().length], read by [getProcessOptions]. *)
Definition html_of_config (cpuCount : nat) (currentConfig : PytestConfig)
  : Html :=
  mkHtml
    [ ("none", is_undefined (tb currentConfig));
      ("auto", strict_eq (tb currentConfig) "auto");
      ("long", strict_eq (tb currentConfig) "long");
      ("short", strict_eq (tb currentConfig) "short");
      ("native", strict_eq (tb currentConfig) "native");
      ("no", strict_eq (tb currentConfig) "no") ]
    (map (fun option =>
            let isSelected :=
              ((option =? "none")
               && is_undefined (numprocesses currentConfig))
              || strict_eq (numprocesses currentConfig) option in
            (option, isSelected))
         (getProcessOptions cpuCount))
    [ ("", negb (truthy (verbosity currentConfig)));
      ("quiet", strict_eq (verbosity currentConfig) "quiet");
      ("verbose", strict_eq (verbosity currentConfig) "verbose");
      ("more-verbose", strict_eq (verbosity currentConfig) "more-verbose");
      ("very-verbose", strict_eq (verbosity currentConfig) "very-verbose") ]
    (truthy_bool (captureOutput currentConfig))
    (truthy_bool (showlocals currentConfig))
    [ ("none", is_undefined (browser currentConfig));
      ("chromium", strict_eq (browser currentConfig) "chromium");
      ("firefox", strict_eq (browser currentConfig) "firefox");
      ("webkit", strict_eq (browser currentConfig) "webkit") ]
    (truthy_bool (headed currentConfig))
    (truthy_bool (slowmo currentConfig))
    [ ("none", is_undefined (tracing currentConfig));
      ("on", strict_eq (tracing currentConfig) "on");
      ("off", strict_eq (tracing currentConfig) "off");
      ("retain-on-failure",
       strict_eq (tracing currentConfig) "retain-on-failure") ]
    [ ("none", is_undefined (video currentConfig));
      ("on", strict_eq (video currentConfig) "on");
      ("off", strict_eq (video currentConfig) "off");
      ("retain-on-failure",
       strict_eq (video currentConfig) "retain-on-failure") ]
    (truthy_bool (delve currentConfig)).

(** [_getHtmlForWebview]: read the current configuration, fill the
    template. *)
Definition getHtmlForWebview (cpuCount : nat) (h : Host) : completion Html :=
  currentConfig <- getCurrentConfig h ;;
  Normal (html_of_config cpuCount currentConfig).

(** The state of the controls: [.value] of each select box, [.checked] of
    each check box. *)
Record Form : Type := mkForm {
  value_tb : string;
  value_numprocesses : string;
  value_verbosity : string;
  checked_captureOutput : bool;
  checked_showlocals : bool;
  value_browser : string;
  checked_headed : bool;
  checked_slowmo : bool;
  value_tracing : string;
  value_video : string;
  checked_delve : bool
}.

(** The value a drop-down select box has once the document is loaded.
    This is the browser's rule, not the extension's: the last option
    carrying [selected] is the selected one, and when none carries it the
    first option is. *)
Definition select_value (options : list html_option) : string :=
  match last_match snd options with
  | Some o => fst o
  | None =>
      match options with
      | o :: _ => fst o
      | [] => ""
      end
  end.

(** The form the user sees for a document. *)
Definition load (html : Html) : Form :=
  mkForm (select_value (select_tb html))
    (select_value (select_numprocesses html))
    (select_value (select_verbosity html))
    (checkbox_captureOutput html) (checkbox_showlocals html)
    (select_value (select_browser html))
    (checkbox_headed html) (checkbox_slowmo html)
    (select_value (select_tracing html))
    (select_value (select_video html))
    (checkbox_delve html).

(** [updateConfig()] of the script: the record posted on every change. *)
Definition updateConfig (f : Form) : PytestConfig :=
  mkPytestConfig (Some (value_tb f)) (Some (value_numprocesses f))
    (Some (value_verbosity f)) (Some (checked_captureOutput f))
    (Some (checked_headed f)) (Some (checked_delve f))
    (Some (value_browser f)) (Some (checked_slowmo f))
    (Some (value_tracing f)) (Some (value_video f))
    (Some (checked_showlocals f)).




(** The values a select box offers. *)
Definition offered (options : list html_option) : list string :=
  map fst options.

(** A state the user can bring the controls of [html] into: every select
    box shows one of its options. *)
Definition reachable (html : Html) (f : Form) : Prop :=
  In (value_tb f) (offered (select_tb html))
  /\ In (value_numprocesses f) (offered (select_numprocesses html))
  /\ In (value_verbosity f) (offered (select_verbosity html))
  /\ In (value_browser f) (offered (select_browser html))
  /\ In (value_tracing f) (offered (select_tracing html))
  /\ In (value_video f) (offered (select_video html)).

(** How many options of a select box carry [selected]. *)
Definition selected_count (options : list html_option) : nat :=
  length (filter snd options).

(** The provider's constructor: [_workspaceFolder] is the first workspace
    folder, if there is one. *)
Definition new_provider (workspaceFolders : option (list string))
  : option string :=
  match workspaceFolders with
  | Some (folder :: _) => Some folder
  | _ => None
  end.

(** [activate]: without a workspace nothing is registered; otherwise the
    provider is created and registered.  The result is the registered
    provider's [_workspaceFolder]. *)
Definition activate (workspaceFolders : option (list string))
  : option (option string) :=
  match workspaceFolders with
  | None | Some [] => None
  | Some _ => Some (new_provider workspaceFolders)
  end.

(** The select box has an entry for the value of the field: the field is
    absent, or its value is one of the offered ones. *)
Definition shows (options : list html_option) (f : option string) : bool :=
  absent_or (one_of (offered options)) f.

(** *** More sample data *)


(** Stored arguments the form has no entries for: [line] is not among the
    traceback styles, and a machine with two cores is not offered [2]. *)
Definition stale_args : list string :=
  ["--tb=line"; "--numprocesses=2"; "-v"].

(** Stored arguments the form on a machine with four cores has entries
    for. *)
Definition shown_args : list string :=
  ["--numprocesses=4"; "-s"; "--tb=short"; "--video=on"].

(* ================================================================== *)
(** * Properties *)

(** ** Strings *)

Section StringFacts.

Lemma startsWith_nil (s : string) : startsWith s "" = true.
Proof. destruct s; reflexivity. Qed.

Lemma startsWith_append (p s : string) : startsWith (p ++ s) p = true.
Proof.
  induction p as [|a p IH]; simpl.
  - apply startsWith_nil.
  - now rewrite Ascii.eqb_refl, IH.
Qed.

Lemma append_assoc (a b c : string) :
  ((a ++ b) ++ c = a ++ (b ++ c))%string.
Proof. induction a as [|ch a IH]; simpl; now rewrite ?IH. Qed.

(** [startsWith] is the library's prefix test. *)
Lemma startsWith_prefix (s p : string) : startsWith s p = String.prefix p s.
Proof.
  revert s; induction p as [|a p IH]; intros s.
  - now destruct s.
  - destruct s as [|b s]; simpl; [reflexivity|].
    rewrite IH. destruct (ascii_dec a b) as [->|n].
    + now rewrite Ascii.eqb_refl.
    + destruct (Ascii.eqb_spec b a); [congruence | reflexivity].
Qed.

(** Two prefixes of one string: one is a prefix of the other. *)
Lemma startsWith_comparable (s p q : string) :
  startsWith s p = true -> startsWith s q = true ->
  startsWith p q = true \/ startsWith q p = true.
Proof.
  revert p q; induction s as [|c s IH]; intros [|a p] [|b q]; simpl;
    try discriminate; auto.
  intros Hp Hq.
  apply andb_true_iff in Hp as [Ha Hp], Hq as [Hb Hq].
  apply Ascii.eqb_eq in Ha, Hb; subst a b.
  rewrite Ascii.eqb_refl; simpl. now apply IH.
Qed.

Lemma startsWith_clash (s p q : string) :
  startsWith p q = false -> startsWith q p = false ->
  startsWith s p = true -> startsWith s q = false.
Proof.
  intros Hpq Hqp Hp. destruct (startsWith s q) eqn:Hq; [|reflexivity].
  destruct (startsWith_comparable _ _ _ Hp Hq); congruence.
Qed.

Lemma split_not_nil (sep : ascii) (s : string) : split sep s <> [].
Proof.
  induction s as [|c s IH]; simpl; [discriminate|].
  destruct (Ascii.eqb c sep); [discriminate|].
  destruct (split sep s); discriminate.
Qed.

(** Without separator there is one piece, the string itself. *)
Lemma split_no_sep (sep : ascii) (s : string) :
  contains sep s = false -> split sep s = [s].
Proof.
  induction s as [|c s IH]; simpl; [reflexivity|].
  intros H. apply orb_false_iff in H as [Hc Hs].
  now rewrite Hc, (IH Hs).
Qed.

(** The first piece stops at the first separator. *)
Lemma split_head_no_sep (sep : ascii) (s : string) :
  match split sep s with
  | piece :: _ => contains sep piece = false
  | [] => False
  end.
Proof.
  induction s as [|c s IH]; simpl; [reflexivity|].
  destruct (Ascii.eqb c sep) eqn:Hc; [reflexivity|].
  destruct (split sep s); [contradiction|].
  simpl. now rewrite Hc.
Qed.

Lemma digit_not_eq_sign (ch : ascii) :
  is_digit ch = true -> Ascii.eqb ch "=" = false.
Proof.
  intros H. destruct (Ascii.eqb_spec ch "="%char) as [->|]; [|reflexivity].
  discriminate H.
Qed.

Lemma all_digits_no_eq_sign (s : string) :
  all_digits s = true -> contains "=" s = false.
Proof.
  induction s as [|c s IH]; simpl; [reflexivity|].
  intros H. apply andb_true_iff in H as [Hc Hs].
  now rewrite (digit_not_eq_sign _ Hc), (IH Hs).
Qed.

Lemma all_digits_not_none (s : string) :
  all_digits s = true -> (s =? "none") = false.
Proof.
  intros H. destruct (String.eqb_spec s "none") as [->|]; [|reflexivity].
  discriminate H.
Qed.

Lemma one_of_In (domain : list string) (v : string) :
  one_of domain v = true -> In v domain.
Proof.
  unfold one_of. intros H. apply existsb_exists in H as (x & Hx & E).
  apply String.eqb_eq in E. now subst.
Qed.

End StringFacts.

(** [arg.split('=')[1]] of a [<name>=<value>] token, where [name] has no
    ['='] of its own: the part of [value] before its first ['=']. *)
Lemma split_eq_1_param (name value : string) :
  contains "=" name = false ->
  split_eq_1 (name ++ "=" ++ value) = nth_error (split "=" value) 0.
Proof.
  unfold split_eq_1. induction name as [|c name IH]; simpl.
  - reflexivity.
  - intros H. apply orb_false_iff in H as [Hc Hn]. rewrite Hc.
    specialize (IH Hn). simpl in IH.
    destruct (split "=" (name ++ String "=" value)) as [|x [|y r]];
      simpl in *; exact IH.
Qed.

Lemma split_eq_1_plain (name value : string) :
  contains "=" name = false -> contains "=" value = false ->
  split_eq_1 (name ++ "=" ++ value) = Some value.
Proof.
  intros Hn Hv. rewrite split_eq_1_param by exact Hn.
  now rewrite split_no_sep.
Qed.

(* ================================================================== *)
(** ** One turn of the parse loop, field by field *)

Ltac eqb_to_eq :=
  repeat match goal with
         | H : (_ =? _)%string = true |- _ => apply String.eqb_eq in H; subst
         end.

Ltac prefix_clash :=
  match goal with
  | H1 : startsWith ?x ?p = true, H2 : startsWith ?x ?q = true |- _ =>
      let E := fresh in
      assert (E := startsWith_clash x p q eq_refl eq_refl H1); congruence
  end.

Ltac unfold_classes :=
  unfold recognized, is_tb, is_numprocesses, is_browser, is_tracing, is_video,
    is_flag, is_verbosity_flag, verbosity_of_flag in *.

(** Walk through the [if]/[else if] chain; the tests exclude each other. *)
Ltac parse_cases :=
  unfold parse_arg; unfold_classes;
  repeat match goal with
         | |- context [if ?b then _ else _] => destruct b eqn:?
         end;
  eqb_to_eq; simpl in *;
  try reflexivity; try discriminate; try congruence; try prefix_clash.

Section ParseArg.

Variables (config : PytestConfig) (arg : string).

Lemma parse_arg_tb :
  tb (parse_arg config arg)
  = if is_tb arg then split_eq_1 arg else tb config.
Proof. parse_cases. Qed.

Lemma parse_arg_numprocesses :
  numprocesses (parse_arg config arg)
  = if is_numprocesses arg then split_eq_1 arg else numprocesses config.
Proof. parse_cases. Qed.

Lemma parse_arg_browser :
  browser (parse_arg config arg)
  = if is_browser arg then split_eq_1 arg else browser config.
Proof. parse_cases. Qed.

Lemma parse_arg_tracing :
  tracing (parse_arg config arg)
  = if is_tracing arg then split_eq_1 arg else tracing config.
Proof. parse_cases. Qed.

Lemma parse_arg_video :
  video (parse_arg config arg)
  = if is_video arg then split_eq_1 arg else video config.
Proof. parse_cases. Qed.

Lemma parse_arg_verbosity :
  verbosity (parse_arg config arg)
  = if is_verbosity_flag arg then verbosity_of_flag arg
    else verbosity config.
Proof. parse_cases. Qed.

Lemma parse_arg_captureOutput :
  captureOutput (parse_arg config arg)
  = if is_flag "-s" arg then Some true else captureOutput config.
Proof. parse_cases. Qed.

Lemma parse_arg_showlocals :
  showlocals (parse_arg config arg)
  = if is_flag "--showlocals" arg then Some true else showlocals config.
Proof. parse_cases. Qed.

Lemma parse_arg_headed :
  headed (parse_arg config arg)
  = if is_flag "--headed" arg then Some true else headed config.
Proof. parse_cases. Qed.

Lemma parse_arg_delve :
  delve (parse_arg config arg)
  = if is_flag "--delve=1" arg then Some true else delve config.
Proof. parse_cases. Qed.

Lemma parse_arg_slowmo :
  slowmo (parse_arg config arg)
  = if is_flag "--slowmo" arg then Some true else slowmo config.
Proof. parse_cases. Qed.

(** A token that no test of the chain accepts leaves the record alone. *)
Lemma parse_arg_unrecognized :
  recognized arg = false -> parse_arg config arg = config.
Proof.
  unfold recognized. intros H.
  repeat (apply orb_false_iff in H; destruct H as [H ?]).
  unfold_classes. unfold parse_arg.
  repeat match goal with
         | H : ?b = false |- context [?b] => rewrite H
         end.
  repeat match goal with
         | |- context [if ?b then _ else _] =>
             destruct b eqn:?; try discriminate
         end.
  reflexivity.
Qed.

End ParseArg.

(* ================================================================== *)
(** ** The parse loop *)

Section LastMatch.

Context {A : Type} (p : A -> bool).

Lemma last_match_app (l1 l2 : list A) :
  last_match p (l1 ++ l2)
  = match last_match p l2 with
    | Some y => Some y
    | None => last_match p l1
    end.
Proof.
  induction l1 as [|x l1 IH]; simpl.
  - now destruct (last_match p l2).
  - rewrite IH. now destruct (last_match p l2).
Qed.

Lemma last_match_holds (l : list A) (y : A) :
  last_match p l = Some y -> In y l /\ p y = true.
Proof.
  induction l as [|x l IH]; simpl; [discriminate|].
  destruct (last_match p l) as [z|].
  - intros [= ->]. destruct (IH eq_refl). auto.
  - destruct (p x) eqn:Hx; [|discriminate].
    intros [= ->]. auto.
Qed.

Lemma last_match_none (l : list A) :
  last_match p l = None <-> existsb p l = false.
Proof.
  induction l as [|x l IH]; simpl; [tauto|].
  destruct (last_match p l) as [z|].
  - split; [discriminate|].
    intros H. apply orb_false_iff in H as [_ H].
    apply IH in H. discriminate.
  - destruct (p x); simpl; [split; discriminate|].
    now rewrite <- IH.
Qed.

(** Nothing after the last match matches. *)
Lemma last_match_split (l1 l2 : list A) (y : A) :
  p y = true -> existsb p l2 = false ->
  last_match p (l1 ++ y :: l2) = Some y.
Proof.
  intros Hy H2. rewrite last_match_app. simpl.
  apply last_match_none in H2. now rewrite H2, Hy.
Qed.

End LastMatch.

Lemma decode_from_app (config : PytestConfig) (l1 l2 : list string) :
  decode_from config (l1 ++ l2) = decode_from (decode_from config l1) l2.
Proof.
  revert config; induction l1 as [|x l1 IH]; intros config; simpl; auto.
Qed.

(** A field that each turn of the loop either overwrites from the token
    or leaves alone ends up written by the last token that touches it. *)
Section FieldOfDecode.

Context {A : Type}.
Variable field : PytestConfig -> option A.
Variable touches : string -> bool.
Variable value : string -> option A.
Hypothesis parse_arg_field : forall config arg,
  field (parse_arg config arg)
  = if touches arg then value arg else field config.

Lemma decode_from_field (l : list string) (config : PytestConfig) :
  field (decode_from config l)
  = match last_match touches l with
    | Some t => value t
    | None => field config
    end.
Proof.
  revert config; induction l as [|x l IH]; intros config; simpl.
  - reflexivity.
  - rewrite IH, parse_arg_field.
    destruct (last_match touches l); [reflexivity|].
    now destruct (touches x).
Qed.

End FieldOfDecode.

Section DecodeFields.

Variables (config : PytestConfig) (l : list string).

Lemma decode_from_tb :
  tb (decode_from config l)
  = match last_match is_tb l with
    | Some t => split_eq_1 t
    | None => tb config
    end.
Proof.
  apply decode_from_field with (value := fun t => split_eq_1 t), parse_arg_tb.
Qed.

Lemma decode_from_numprocesses :
  numprocesses (decode_from config l)
  = match last_match is_numprocesses l with
    | Some t => split_eq_1 t
    | None => numprocesses config
    end.
Proof.
  apply decode_from_field with (value := fun t => split_eq_1 t), parse_arg_numprocesses.
Qed.

Lemma decode_from_browser :
  browser (decode_from config l)
  = match last_match is_browser l with
    | Some t => split_eq_1 t
    | None => browser config
    end.
Proof.
  apply decode_from_field with (value := fun t => split_eq_1 t), parse_arg_browser.
Qed.

Lemma decode_from_tracing :
  tracing (decode_from config l)
  = match last_match is_tracing l with
    | Some t => split_eq_1 t
    | None => tracing config
    end.
Proof.
  apply decode_from_field with (value := fun t => split_eq_1 t), parse_arg_tracing.
Qed.

Lemma decode_from_video :
  video (decode_from config l)
  = match last_match is_video l with
    | Some t => split_eq_1 t
    | None => video config
    end.
Proof.
  apply decode_from_field with (value := fun t => split_eq_1 t), parse_arg_video.
Qed.

Lemma decode_from_verbosity :
  verbosity (decode_from config l)
  = match last_match is_verbosity_flag l with
    | Some t => verbosity_of_flag t
    | None => verbosity config
    end.
Proof.
  apply decode_from_field with (value := fun t => verbosity_of_flag t), parse_arg_verbosity.
Qed.

Lemma decode_from_captureOutput :
  captureOutput (decode_from config l)
  = match last_match (is_flag "-s") l with
    | Some t => Some true
    | None => captureOutput config
    end.
Proof.
  apply decode_from_field with (value := fun t => Some true), parse_arg_captureOutput.
Qed.

Lemma decode_from_showlocals :
  showlocals (decode_from config l)
  = match last_match (is_flag "--showlocals") l with
    | Some t => Some true
    | None => showlocals config
    end.
Proof.
  apply decode_from_field with (value := fun t => Some true), parse_arg_showlocals.
Qed.

Lemma decode_from_headed :
  headed (decode_from config l)
  = match last_match (is_flag "--headed") l with
    | Some t => Some true
    | None => headed config
    end.
Proof.
  apply decode_from_field with (value := fun t => Some true), parse_arg_headed.
Qed.

Lemma decode_from_delve :
  delve (decode_from config l)
  = match last_match (is_flag "--delve=1") l with
    | Some t => Some true
    | None => delve config
    end.
Proof.
  apply decode_from_field with (value := fun t => Some true), parse_arg_delve.
Qed.

Lemma decode_from_slowmo :
  slowmo (decode_from config l)
  = match last_match (is_flag "--slowmo") l with
    | Some t => Some true
    | None => slowmo config
    end.
Proof.
  apply decode_from_field with (value := fun t => Some true), parse_arg_slowmo.
Qed.

End DecodeFields.

(* ================================================================== *)
(** ** The encoder, check by check *)

Lemma cat_options_app {A} (l1 l2 : list (option A)) :
  cat_options (l1 ++ l2) = cat_options l1 ++ cat_options l2.
Proof.
  induction l1 as [|[x|] l1 IH]; simpl; now rewrite ?IH.
Qed.

Lemma push_param_spec (flag : string) (f : option string)
    (newArgs : list string) :
  push_param flag f newArgs = newArgs ++ cat_options [param_token flag f].
Proof.
  unfold push_param, param_token, truthy.
  destruct f as [v|]; [|now rewrite app_nil_r].
  destruct (v =? "none"); destruct v; simpl; now rewrite ?app_nil_r.
Qed.

Lemma push_verbosity_spec (f : option string) (newArgs : list string) :
  push_verbosity f newArgs = newArgs ++ cat_options [verbosity_token f].
Proof.
  unfold push_verbosity, verbosity_token, truthy.
  destruct f as [v|]; [|now rewrite app_nil_r].
  repeat match goal with
         | |- context [if (?a =? ?b) then _ else _] => destruct (a =? b) eqn:?
         end; eqb_to_eq; simpl; rewrite ?app_nil_r; try reflexivity.
  now destruct v; simpl; rewrite ?app_nil_r.
Qed.

Lemma push_flag_spec (flag : string) (f : option bool)
    (newArgs : list string) :
  push_flag flag f newArgs = newArgs ++ cat_options [flag_token flag f].
Proof.
  unfold push_flag, flag_token.
  destruct (truthy_bool f); simpl; now rewrite ?app_nil_r.
Qed.

(** The threaded array is the concatenation of the eleven contributions. *)
Lemma encode_eq_spec (c : PytestConfig) : encode c = encode_spec c.
Proof.
  unfold encode, encode_spec, field_tokens.
  rewrite !push_param_spec, !push_flag_spec, !push_verbosity_spec.
  change (@nil string) with (cat_options (@nil (option string))).
  now rewrite <- !cat_options_app.
Qed.

Lemma last_match_cat_options (p : string -> bool) (o : option string)
    (os : list (option string)) :
  last_match p (cat_options (o :: os))
  = match last_match p (cat_options os) with
    | Some y => Some y
    | None => keep p o
    end.
Proof.
  destruct o as [t|]; simpl; [reflexivity|].
  now destruct (last_match p (cat_options os)).
Qed.

Section Keep.

Variable p : string -> bool.

Lemma keep_param_miss (flag : string) (f : option string) :
  (forall v, p (flag ++ v) = false) -> keep p (param_token flag f) = None.
Proof.
  intros H. destruct f as [v|]; simpl; [|reflexivity].
  destruct ((v =? "") || (v =? "none")); simpl; [reflexivity|].
  now rewrite H.
Qed.

Lemma keep_param_hit (flag : string) (f : option string) :
  (forall v, p (flag ++ v) = true) ->
  keep p (param_token flag f) = param_token flag f.
Proof.
  intros H. destruct f as [v|]; simpl; [|reflexivity].
  destruct ((v =? "") || (v =? "none")); simpl; [reflexivity|].
  now rewrite H.
Qed.

Lemma keep_flag_miss (flag : string) (f : option bool) :
  p flag = false -> keep p (flag_token flag f) = None.
Proof.
  intros H. unfold flag_token. destruct (truthy_bool f); simpl;
    [now rewrite H | reflexivity].
Qed.

Lemma keep_flag_hit (flag : string) (f : option bool) :
  p flag = true -> keep p (flag_token flag f) = flag_token flag f.
Proof.
  intros H. unfold flag_token. destruct (truthy_bool f); simpl;
    [now rewrite H | reflexivity].
Qed.

Lemma keep_verbosity_miss (f : option string) :
  p "-q" = false -> p "-v" = false -> p "-vv" = false -> p "-vvv" = false ->
  keep p (verbosity_token f) = None.
Proof.
  intros Hq Hv Hvv Hvvv. destruct f as [v|]; simpl; [|reflexivity].
  repeat match goal with
         | |- context [if (?a =? ?b) then _ else _] => destruct (a =? b)
         end; simpl; now rewrite ?Hq, ?Hv, ?Hvv, ?Hvvv.
Qed.

End Keep.

Lemma keep_verbosity_hit (f : option string) :
  keep is_verbosity_flag (verbosity_token f) = verbosity_token f.
Proof.
  destruct f as [v|]; simpl; [|reflexivity].
  repeat match goal with
         | |- context [if (?a =? ?b) then _ else _] => destruct (a =? b)
         end; reflexivity.
Qed.

Lemma option_eta {A} (o : option A) :
  match o with Some y => Some y | None => None end = o.
Proof. now destruct o. Qed.

(** The tokens of [encode c] that the decoder attributes to a field are
    that field's own contribution, and nothing else. *)
Ltac own_token :=
  rewrite encode_eq_spec; unfold encode_spec, field_tokens;
  rewrite !last_match_cat_options; simpl (last_match _ (cat_options [])); cbv beta iota;
  repeat first
    [ rewrite keep_param_miss by (intro; reflexivity)
    | rewrite keep_flag_miss by reflexivity
    | rewrite keep_verbosity_miss by reflexivity
    | rewrite keep_param_hit by (intro; unfold_classes; apply startsWith_append)
    | rewrite keep_flag_hit by reflexivity
    | rewrite keep_verbosity_hit ];
  cbv beta iota; rewrite ?option_eta; reflexivity.

Section OwnToken.

Variable c : PytestConfig.

Lemma encode_tb_token :
  last_match is_tb (encode c) = param_token "--tb=" (tb c).
Proof. own_token. Qed.

Lemma encode_numprocesses_token :
  last_match is_numprocesses (encode c)
  = param_token "--numprocesses=" (numprocesses c).
Proof. own_token. Qed.

Lemma encode_browser_token :
  last_match is_browser (encode c) = param_token "--browser=" (browser c).
Proof. own_token. Qed.

Lemma encode_tracing_token :
  last_match is_tracing (encode c) = param_token "--tracing=" (tracing c).
Proof. own_token. Qed.

Lemma encode_video_token :
  last_match is_video (encode c) = param_token "--video=" (video c).
Proof. own_token. Qed.

Lemma encode_verbosity_token :
  last_match is_verbosity_flag (encode c) = verbosity_token (verbosity c).
Proof. own_token. Qed.

Lemma encode_captureOutput_token :
  last_match (is_flag "-s") (encode c) = flag_token "-s" (captureOutput c).
Proof. own_token. Qed.

Lemma encode_showlocals_token :
  last_match (is_flag "--showlocals") (encode c)
  = flag_token "--showlocals" (showlocals c).
Proof. own_token. Qed.

Lemma encode_headed_token :
  last_match (is_flag "--headed") (encode c)
  = flag_token "--headed" (headed c).
Proof. own_token. Qed.

Lemma encode_delve_token :
  last_match (is_flag "--delve=1") (encode c)
  = flag_token "--delve=1" (delve c).
Proof. own_token. Qed.

Lemma encode_slowmo_token :
  last_match (is_flag "--slowmo") (encode c)
  = flag_token "--slowmo" (slowmo c).
Proof. own_token. Qed.

End OwnToken.

(* ================================================================== *)
(** ** Records *)

Lemma config_ext (a b : PytestConfig) :
  tb a = tb b -> numprocesses a = numprocesses b ->
  verbosity a = verbosity b -> captureOutput a = captureOutput b ->
  headed a = headed b -> delve a = delve b -> browser a = browser b ->
  slowmo a = slowmo b -> tracing a = tracing b -> video a = video b ->
  showlocals a = showlocals b -> a = b.
Proof. destruct a, b; simpl; intros; subst; reflexivity. Qed.

Lemma config_equiv_refl (a : PytestConfig) : config_equiv a a.
Proof. repeat split. Qed.

Lemma config_equiv_sym (a b : PytestConfig) :
  config_equiv a b -> config_equiv b a.
Proof. unfold config_equiv; intuition congruence. Qed.

Lemma config_equiv_trans (a b c : PytestConfig) :
  config_equiv a b -> config_equiv b c -> config_equiv a c.
Proof. unfold config_equiv; intuition congruence. Qed.

Lemma param_token_equiv (flag : string) (f g : option string) :
  f = g -> param_token flag f = param_token flag g.
Proof. now intros ->. Qed.

Lemma flag_token_equiv (flag : string) (f g : option bool) :
  truthy_bool f = truthy_bool g -> flag_token flag f = flag_token flag g.
Proof. unfold flag_token. now intros ->. Qed.

(** Semantically equal records encode alike ... *)
Lemma config_equiv_encode (a b : PytestConfig) :
  config_equiv a b -> encode a = encode b.
Proof.
  intros (H1 & H2 & H3 & H4 & H5 & H6 & H7 & H8 & H9 & H10 & H11).
  rewrite !encode_eq_spec. unfold encode_spec, field_tokens.
  rewrite H1, H2, H3, H4, H5, H6.
  now rewrite (flag_token_equiv "-s" _ _ H7),
    (flag_token_equiv "--showlocals" _ _ H8),
    (flag_token_equiv "--headed" _ _ H9),
    (flag_token_equiv "--delve=1" _ _ H10),
    (flag_token_equiv "--slowmo" _ _ H11).
Qed.

(** ... but records that encode alike need not be semantically equal. *)
Example encode_alike_not_equiv :
  encode (set_tb (Some "none") emptyConfig) = encode emptyConfig
  /\ ~ config_equiv (set_tb (Some "none") emptyConfig) emptyConfig.
Proof.
  split; [reflexivity|]. intros (H & _). discriminate H.
Qed.

(* ================================================================== *)
(** ** Round trip *)

Ltac by_enumeration H :=
  apply one_of_In in H; simpl in H;
  repeat (destruct H as [<-|H]; [reflexivity|]); contradiction.

Lemma tb_domain_plain (v : string) : tb_domain v = true -> plain v = true.
Proof. intros H. by_enumeration H. Qed.

Lemma browser_domain_plain (v : string) : browser_domain v = true -> plain v = true.
Proof. intros H. by_enumeration H. Qed.

Lemma tracing_domain_plain (v : string) : tracing_domain v = true -> plain v = true.
Proof. intros H. by_enumeration H. Qed.

Lemma video_domain_plain (v : string) : video_domain v = true -> plain v = true.
Proof. intros H. by_enumeration H. Qed.

Lemma numprocesses_domain_plain (v : string) :
  numprocesses_domain v = true -> plain v = true.
Proof.
  unfold numprocesses_domain, plain. intros H.
  apply orb_true_iff in H as [H|H].
  - apply String.eqb_eq in H. now subst.
  - apply andb_true_iff in H as [Hne Hd].
    now rewrite Hne, (all_digits_not_none _ Hd), (all_digits_no_eq_sign _ Hd).
Qed.

Lemma absent_or_impl (d1 d2 : string -> bool) (f : option string) :
  (forall v, d1 v = true -> d2 v = true) ->
  absent_or d1 f = true -> absent_or d2 f = true.
Proof. destruct f; simpl; auto. Qed.

(** A plain value comes back from its token unchanged. *)
Lemma roundtrip_param (name : string) (f : option string) :
  contains "=" name = false -> absent_or plain f = true ->
  match param_token (name ++ "=") f with
  | Some t => split_eq_1 t
  | None => None
  end = f.
Proof.
  intros Hn Hf. destruct f as [v|]; simpl in *; [|reflexivity].
  unfold plain in Hf.
  apply andb_true_iff in Hf as [Hf He]. apply andb_true_iff in Hf as [H0 H1].
  apply negb_true_iff in H0, H1, He. rewrite H0, H1. simpl.
  rewrite append_assoc.
  now rewrite (split_eq_1_plain name v Hn He).
Qed.

Lemma roundtrip_verbosity (f : option string) :
  absent_or verbosity_domain f = true ->
  match verbosity_token f with
  | Some t => verbosity_of_flag t
  | None => None
  end = f.
Proof.
  destruct f as [v|]; simpl; [|reflexivity].
  intros H. by_enumeration H.
Qed.

Lemma roundtrip_flag (flag : string) (f : option bool) :
  truthy_bool
    match flag_token flag f with Some _ => Some true | None => None end
  = truthy_bool f.
Proof. now destruct f as [[|]|]. Qed.

Lemma roundtrip_flag_exact (flag : string) (f : option bool) :
  unset_or_true f = true ->
  match flag_token flag f with Some _ => Some true | None => None end = f.
Proof. now destruct f as [[|]|]. Qed.

Section RoundTripFields.

Variable c : PytestConfig.

Lemma roundtrip_tb :
  absent_or plain (tb c) = true -> tb (decode (encode c)) = tb c.
Proof.
  intros H. unfold decode. rewrite decode_from_tb, encode_tb_token.
  now apply (roundtrip_param "--tb").
Qed.

Lemma roundtrip_numprocesses :
  absent_or plain (numprocesses c) = true ->
  numprocesses (decode (encode c)) = numprocesses c.
Proof.
  intros H. unfold decode.
  rewrite decode_from_numprocesses, encode_numprocesses_token.
  now apply (roundtrip_param "--numprocesses").
Qed.

Lemma roundtrip_browser :
  absent_or plain (browser c) = true ->
  browser (decode (encode c)) = browser c.
Proof.
  intros H. unfold decode. rewrite decode_from_browser, encode_browser_token.
  now apply (roundtrip_param "--browser").
Qed.

Lemma roundtrip_tracing :
  absent_or plain (tracing c) = true ->
  tracing (decode (encode c)) = tracing c.
Proof.
  intros H. unfold decode. rewrite decode_from_tracing, encode_tracing_token.
  now apply (roundtrip_param "--tracing").
Qed.

Lemma roundtrip_video :
  absent_or plain (video c) = true -> video (decode (encode c)) = video c.
Proof.
  intros H. unfold decode. rewrite decode_from_video, encode_video_token.
  now apply (roundtrip_param "--video").
Qed.

Lemma roundtrip_verbosity_field :
  absent_or verbosity_domain (verbosity c) = true ->
  verbosity (decode (encode c)) = verbosity c.
Proof.
  intros H. unfold decode.
  rewrite decode_from_verbosity, encode_verbosity_token.
  now apply roundtrip_verbosity.
Qed.

Lemma decoded_captureOutput :
  captureOutput (decode (encode c))
  = match flag_token "-s" (captureOutput c) with
    | Some _ => Some true
    | None => None
    end.
Proof.
  unfold decode. now rewrite decode_from_captureOutput, encode_captureOutput_token.
Qed.

Lemma decoded_showlocals :
  showlocals (decode (encode c))
  = match flag_token "--showlocals" (showlocals c) with
    | Some _ => Some true
    | None => None
    end.
Proof.
  unfold decode. now rewrite decode_from_showlocals, encode_showlocals_token.
Qed.

Lemma decoded_headed :
  headed (decode (encode c))
  = match flag_token "--headed" (headed c) with
    | Some _ => Some true
    | None => None
    end.
Proof.
  unfold decode. now rewrite decode_from_headed, encode_headed_token.
Qed.

Lemma decoded_delve :
  delve (decode (encode c))
  = match flag_token "--delve=1" (delve c) with
    | Some _ => Some true
    | None => None
    end.
Proof.
  unfold decode. now rewrite decode_from_delve, encode_delve_token.
Qed.

Lemma decoded_slowmo :
  slowmo (decode (encode c))
  = match flag_token "--slowmo" (slowmo c) with
    | Some _ => Some true
    | None => None
    end.
Proof.
  unfold decode. now rewrite decode_from_slowmo, encode_slowmo_token.
Qed.

End RoundTripFields.

(** The round trip under the weakest conditions the code supports: the
    parameter values are [plain], the verbosity is one of the four names. *)
Lemma roundtrip_plain (c : PytestConfig) :
  absent_or plain (tb c) = true ->
  absent_or plain (numprocesses c) = true ->
  absent_or verbosity_domain (verbosity c) = true ->
  absent_or plain (browser c) = true ->
  absent_or plain (tracing c) = true ->
  absent_or plain (video c) = true ->
  config_equiv (decode (encode c)) c
  /\ (switches_unset_or_true c = true -> decode (encode c) = c).
Proof.
  intros Htb Hnp Hvb Hbr Htr Hvi.
  pose proof (roundtrip_tb c Htb) as E1.
  pose proof (roundtrip_numprocesses c Hnp) as E2.
  pose proof (roundtrip_verbosity_field c Hvb) as E3.
  pose proof (roundtrip_browser c Hbr) as E4.
  pose proof (roundtrip_tracing c Htr) as E5.
  pose proof (roundtrip_video c Hvi) as E6.
  split.
  - unfold config_equiv.
    rewrite decoded_captureOutput, decoded_showlocals, decoded_headed,
      decoded_delve, decoded_slowmo, !roundtrip_flag.
    repeat split; assumption.
  - unfold switches_unset_or_true. intros H.
    repeat (apply andb_true_iff in H; destruct H as [H ?]).
    apply config_ext; try assumption.
    + rewrite decoded_captureOutput. now apply roundtrip_flag_exact.
    + rewrite decoded_headed. now apply roundtrip_flag_exact.
    + rewrite decoded_delve. now apply roundtrip_flag_exact.
    + rewrite decoded_slowmo. now apply roundtrip_flag_exact.
    + rewrite decoded_showlocals. now apply roundtrip_flag_exact.
Qed.

(** C1.  For every configuration [c] that is absent-field-normalized
    (every optional field absent or holding a value of its documented
    domain, hence never ['none']), decoding the tokens produced by encoding
    [c] yields a configuration semantically equal to [c]: the optional
    fields are equal, and every switch is on exactly when it is on in [c].
    When the switches of [c] are moreover stored as the decoder stores them
    (unassigned or [true]), the result is [c] itself.  A record has a single
    verbosity field, so conflicting verbosity flags cannot arise in it. *)
Theorem decode_encode_roundtrip (c : PytestConfig) :
  normalized c = true ->
  config_equiv (decode (encode c)) c
  /\ (switches_unset_or_true c = true -> decode (encode c) = c).
Proof.
  unfold normalized. intros H.
  repeat (apply andb_true_iff in H; destruct H as [H ?]).
  apply roundtrip_plain;
    eauto using absent_or_impl, tb_domain_plain, numprocesses_domain_plain,
      browser_domain_plain, tracing_domain_plain, video_domain_plain.
Qed.

Lemma decode_encode_roundtrip_witness :
  normalized form_config = true
  /\ config_equiv (decode (encode form_config)) form_config.
Proof.
  split; [reflexivity|].
  exact (proj1 (decode_encode_roundtrip form_config eq_refl)).
Defined.

(* ================================================================== *)
(** ** Order of the encoded tokens *)

Lemma assign_comm (c : PytestConfig) (a b : assignment) :
  field_of a <> field_of b -> assign (assign c a) b = assign (assign c b) a.
Proof.
  destruct a, b; simpl; intros H; try reflexivity; now destruct H.
Qed.

(** Assignments to distinct fields can be made in any order. *)
Lemma build_from_permutation (h1 h2 : list assignment) :
  Permutation h1 h2 -> NoDup (map field_of h1) ->
  forall c, build_from c h1 = build_from c h2.
Proof.
  unfold build_from.
  induction 1 as [|x l l' HP IH|x y l|l l' l'' HP1 IH1 HP2 IH2]; intros ND c.
  - reflexivity.
  - simpl. inversion ND; subst. now apply IH.
  - simpl. rewrite (assign_comm c y x); [reflexivity|].
    simpl in ND. inversion ND as [|? ? Hnotin _]; subst.
    intros E. apply Hnotin. left. now symmetry.
  - rewrite IH1 by assumption. apply IH2.
    eapply Permutation_NoDup; [|exact ND]. now apply Permutation_map.
Qed.

(** C2.  For every configuration the encoded list is exactly the sequence
    of the tokens of the eleven fields, at most one per field, in the fixed
    order traceback, process count, verbosity, [-s], [--showlocals],
    [--headed], [--delve=1], browser, [--slowmo], tracing, video.  Encoding
    [{tb: short, verbosity: verbose, captureOutput: true}] gives
    [--tb=short; -v; -s].  Two records built by the same assignments, each
    field assigned at most once, made in different orders encode alike. *)
Theorem encode_fixed_order :
  (forall c : PytestConfig,
     encode c
     = cat_options
         [ param_token "--tb=" (tb c);
           param_token "--numprocesses=" (numprocesses c);
           verbosity_token (verbosity c);
           flag_token "-s" (captureOutput c);
           flag_token "--showlocals" (showlocals c);
           flag_token "--headed" (headed c);
           flag_token "--delve=1" (delve c);
           param_token "--browser=" (browser c);
           flag_token "--slowmo" (slowmo c);
           param_token "--tracing=" (tracing c);
           param_token "--video=" (video c) ])
  /\ encode scenario1_config = ["--tb=short"; "-v"; "-s"]
  /\ (forall h1 h2 : list assignment,
        Permutation h1 h2 -> NoDup (map field_of h1) ->
        encode (build h1) = encode (build h2)).
Proof.
  split; [exact encode_eq_spec|]. split; [reflexivity|].
  intros h1 h2 HP ND. unfold build.
  now rewrite (build_from_permutation h1 h2 HP ND).
Qed.

Lemma encode_fixed_order_witness :
  Permutation form_history (rev form_history)
  /\ NoDup (map field_of form_history)
  /\ encode (build form_history) = encode (build (rev form_history)).
Proof.
  assert (ND : NoDup (map field_of form_history)).
  { simpl. repeat constructor; simpl; intuition discriminate. }
  split; [apply Permutation_rev|]. split; [exact ND|].
  exact (proj2 (proj2 encode_fixed_order) form_history (rev form_history)
           (Permutation_rev form_history) ND).
Defined.

(* ================================================================== *)
(** ** Zero configuration *)

Lemma param_token_sentinel (flag : string) (f : option string) :
  is_sentinel f = true -> param_token flag f = None.
Proof.
  destruct f as [v|]; simpl; [|reflexivity].
  rewrite orb_comm. now intros ->.
Qed.

Lemma verbosity_token_sentinel (f : option string) :
  is_sentinel f = true -> verbosity_token f = None.
Proof.
  destruct f as [v|]; simpl; [|reflexivity].
  intros H. apply orb_true_iff in H as [H|H]; apply String.eqb_eq in H;
    now subst.
Qed.

Lemma flag_token_off (flag : string) (f : option bool) :
  truthy_bool f = false -> flag_token flag f = None.
Proof. unfold flag_token. now intros ->. Qed.

(** C4.  Decoding the empty token list yields the zero configuration: it is
    the record [{}], in which every optional field is absent and every
    switch is off.  Encoding any zero configuration, in particular [{}],
    yields the empty token sequence. *)
Theorem zero_configuration :
  decode [] = emptyConfig
  /\ is_zero (decode []) = true
  /\ (forall z : PytestConfig, is_zero z = true -> encode z = [])
  /\ encode emptyConfig = [].
Proof.
  repeat split.
  intros z. rewrite encode_eq_spec. unfold is_zero, encode_spec, field_tokens.
  destruct (tb z), (numprocesses z), (verbosity z), (browser z), (tracing z),
    (video z); try discriminate.
  intros H.
  repeat (apply andb_true_iff in H; destruct H as [H ?]).
  repeat match goal with
         | H : negb _ = true |- _ => apply negb_true_iff in H
         end.
  rewrite !flag_token_off by assumption. reflexivity.
Qed.

Lemma zero_configuration_witness :
  is_zero (set_captureOutput (Some false) emptyConfig) = true
  /\ encode (set_captureOutput (Some false) emptyConfig) = [].
Proof.
  split; [reflexivity|].
  apply (proj1 (proj2 (proj2 zero_configuration))). reflexivity.
Defined.

(* ================================================================== *)
(** ** Repeated and unknown tokens *)

Section LastTokenWins.

Variables (l1 l2 : list string) (t : string).

(** The shape shared by all fields: when [t] touches a field and no later
    token does, the loop leaves the field as [t] sets it. *)
Lemma last_token_decides {A} (field : PytestConfig -> option A)
    (touches : string -> bool) (value : string -> option A) :
  (forall config l,
     field (decode_from config l)
     = match last_match touches l with
       | Some u => value u
       | None => field config
       end) ->
  touches t = true -> existsb touches l2 = false ->
  field (decode (l1 ++ t :: l2)) = value t.
Proof.
  intros Hfield Ht H2. unfold decode.
  now rewrite Hfield, (last_match_split touches l1 l2 t Ht H2).
Qed.

End LastTokenWins.

(** C5.  When a token list holds several verbosity flags, the decoded
    verbosity is the one of the last flag, reading left to right: if [t] is
    a verbosity flag and no flag follows it, the verbosity is that of [t];
    thus [-q; -vv] decodes to more-verbose.  The same holds for every other
    field: the last token with the field's prefix decides a parameter
    (through [arg.split('=')[1]]), and the last occurrence of a switch token
    leaves the switch on. *)
Theorem last_match_wins (l1 l2 : list string) (t : string) :
  (is_verbosity_flag t = true -> existsb is_verbosity_flag l2 = false ->
     verbosity (decode (l1 ++ t :: l2)) = verbosity_of_flag t)
  /\ verbosity (decode ["-q"; "-vv"]) = Some "more-verbose"
  /\ (is_tb t = true -> existsb is_tb l2 = false ->
        tb (decode (l1 ++ t :: l2)) = split_eq_1 t)
  /\ (is_numprocesses t = true -> existsb is_numprocesses l2 = false ->
        numprocesses (decode (l1 ++ t :: l2)) = split_eq_1 t)
  /\ (is_browser t = true -> existsb is_browser l2 = false ->
        browser (decode (l1 ++ t :: l2)) = split_eq_1 t)
  /\ (is_tracing t = true -> existsb is_tracing l2 = false ->
        tracing (decode (l1 ++ t :: l2)) = split_eq_1 t)
  /\ (is_video t = true -> existsb is_video l2 = false ->
        video (decode (l1 ++ t :: l2)) = split_eq_1 t)
  /\ (is_flag "-s" t = true -> existsb (is_flag "-s") l2 = false ->
        captureOutput (decode (l1 ++ t :: l2)) = Some true)
  /\ (is_flag "--showlocals" t = true ->
      existsb (is_flag "--showlocals") l2 = false ->
        showlocals (decode (l1 ++ t :: l2)) = Some true)
  /\ (is_flag "--headed" t = true -> existsb (is_flag "--headed") l2 = false ->
        headed (decode (l1 ++ t :: l2)) = Some true)
  /\ (is_flag "--delve=1" t = true ->
      existsb (is_flag "--delve=1") l2 = false ->
        delve (decode (l1 ++ t :: l2)) = Some true)
  /\ (is_flag "--slowmo" t = true -> existsb (is_flag "--slowmo") l2 = false ->
        slowmo (decode (l1 ++ t :: l2)) = Some true).
Proof.
  repeat split.
  - apply last_token_decides. intros; apply decode_from_verbosity.
  - apply last_token_decides. intros; apply decode_from_tb.
  - apply last_token_decides. intros; apply decode_from_numprocesses.
  - apply last_token_decides. intros; apply decode_from_browser.
  - apply last_token_decides. intros; apply decode_from_tracing.
  - apply last_token_decides. intros; apply decode_from_video.
  - apply (last_token_decides l1 l2 t captureOutput (is_flag "-s")
             (fun _ => Some true)).
    intros; apply decode_from_captureOutput.
  - apply (last_token_decides l1 l2 t showlocals (is_flag "--showlocals")
             (fun _ => Some true)).
    intros; apply decode_from_showlocals.
  - apply (last_token_decides l1 l2 t headed (is_flag "--headed")
             (fun _ => Some true)).
    intros; apply decode_from_headed.
  - apply (last_token_decides l1 l2 t delve (is_flag "--delve=1")
             (fun _ => Some true)).
    intros; apply decode_from_delve.
  - apply (last_token_decides l1 l2 t slowmo (is_flag "--slowmo")
             (fun _ => Some true)).
    intros; apply decode_from_slowmo.
Qed.

Lemma last_match_wins_witness :
  is_verbosity_flag "-vv" = true
  /\ existsb is_verbosity_flag ["-s"; "--tb=no"] = false
  /\ verbosity
       (decode (["-q"; "--tb=long"; "-v"] ++ "-vv" :: ["-s"; "--tb=no"]))
     = verbosity_of_flag "-vv".
Proof.
  split; [reflexivity|]. split; [reflexivity|].
  apply (proj1 (last_match_wins ["-q"; "--tb=long"; "-v"] ["-s"; "--tb=no"]
                  "-vv")); reflexivity.
Defined.

Lemma decode_from_filter_recognized (l : list string) (config : PytestConfig) :
  decode_from config (filter recognized l) = decode_from config l.
Proof.
  revert config; induction l as [|x l IH]; intros config; simpl.
  - reflexivity.
  - destruct (recognized x) eqn:Hx; simpl.
    + apply IH.
    + now rewrite (parse_arg_unrecognized config x Hx).
Qed.

(** On an array of strings the loop never throws: it returns what the
    pure loop computes. *)
Lemma parse_loop_strings (l : list string) (config : PytestConfig) :
  parse_loop config (map JString l) = Normal (decode_from config l).
Proof.
  revert config; induction l as [|x l IH]; intros config; simpl; auto.
Qed.

(** C6.  A token that matches none of the exact flags or prefixes is
    skipped: the loop completes normally whatever strings it is given, and
    removing every unrecognized token from the input leaves the decoded
    configuration unchanged.  [--foo=bar; -q] decodes to verbosity quiet and
    nothing else. *)
Theorem unknown_tokens_ignored :
  (forall l : list string, decode (filter recognized l) = decode l)
  /\ (forall l : list string,
        parse_loop emptyConfig (map JString l)
        = Normal (decode (filter recognized l)))
  /\ recognized "--foo=bar" = false
  /\ decode ["--foo=bar"; "-q"]
     = mkPytestConfig None None (Some "quiet") None None None None None None
         None None.
Proof.
  split; [|split; [|split; reflexivity]].
  - intros l. apply decode_from_filter_recognized.
  - intros l. rewrite parse_loop_strings. unfold decode.
    now rewrite decode_from_filter_recognized.
Qed.

(* ================================================================== *)
(** ** Suppressed tokens *)

Lemma no_token_of_field (p : string -> bool) (c : PytestConfig)
    (own : option string) :
  last_match p (encode c) = own -> own = None -> existsb p (encode c) = false.
Proof. intros H E. apply last_match_none. congruence. Qed.

(** C7.  The encoder emits no token for a field at its absent or default
    value: none carrying the field's prefix for an optional field that is
    absent or equal to ['none'] (or the empty string), no verbosity flag for
    such a verbosity, and no switch token for a switch that is [false] or
    unassigned. *)
Theorem encode_suppresses_defaults (c : PytestConfig) :
  (is_sentinel (tb c) = true -> existsb is_tb (encode c) = false)
  /\ (is_sentinel (numprocesses c) = true ->
        existsb is_numprocesses (encode c) = false)
  /\ (is_sentinel (verbosity c) = true ->
        existsb is_verbosity_flag (encode c) = false)
  /\ (is_sentinel (browser c) = true -> existsb is_browser (encode c) = false)
  /\ (is_sentinel (tracing c) = true -> existsb is_tracing (encode c) = false)
  /\ (is_sentinel (video c) = true -> existsb is_video (encode c) = false)
  /\ (truthy_bool (captureOutput c) = false ->
        existsb (is_flag "-s") (encode c) = false)
  /\ (truthy_bool (showlocals c) = false ->
        existsb (is_flag "--showlocals") (encode c) = false)
  /\ (truthy_bool (headed c) = false ->
        existsb (is_flag "--headed") (encode c) = false)
  /\ (truthy_bool (delve c) = false ->
        existsb (is_flag "--delve=1") (encode c) = false)
  /\ (truthy_bool (slowmo c) = false ->
        existsb (is_flag "--slowmo") (encode c) = false).
Proof.
  repeat split; intros H.
  - eapply no_token_of_field;
      [apply encode_tb_token | now apply param_token_sentinel].
  - eapply no_token_of_field;
      [apply encode_numprocesses_token | now apply param_token_sentinel].
  - eapply no_token_of_field;
      [apply encode_verbosity_token | now apply verbosity_token_sentinel].
  - eapply no_token_of_field;
      [apply encode_browser_token | now apply param_token_sentinel].
  - eapply no_token_of_field;
      [apply encode_tracing_token | now apply param_token_sentinel].
  - eapply no_token_of_field;
      [apply encode_video_token | now apply param_token_sentinel].
  - eapply no_token_of_field;
      [apply encode_captureOutput_token | now apply flag_token_off].
  - eapply no_token_of_field;
      [apply encode_showlocals_token | now apply flag_token_off].
  - eapply no_token_of_field;
      [apply encode_headed_token | now apply flag_token_off].
  - eapply no_token_of_field;
      [apply encode_delve_token | now apply flag_token_off].
  - eapply no_token_of_field;
      [apply encode_slowmo_token | now apply flag_token_off].
Qed.

Lemma encode_suppresses_defaults_witness :
  is_sentinel (tb posted_defaults) = true
  /\ existsb is_tb (encode posted_defaults) = false
  /\ existsb (is_flag "-s") (encode posted_defaults) = false.
Proof.
  split; [reflexivity|]. split.
  - apply (proj1 (encode_suppresses_defaults posted_defaults)). reflexivity.
  - apply (encode_suppresses_defaults posted_defaults). reflexivity.
Defined.



Lemma token_of_field_emitted (p : string -> bool) (c : PytestConfig)
    (t : string) :
  last_match p (encode c) = Some t -> In t (encode c).
Proof. intros H. now apply last_match_holds in H. Qed.




(* ================================================================== *)
(** ** Switches *)

Lemma existsb_is_flag (flag : string) (l : list string) :
  existsb (is_flag flag) l = true <-> In flag l.
Proof.
  rewrite existsb_exists. unfold is_flag. split.
  - intros (x & Hx & E). apply String.eqb_eq in E. now subst.
  - intros H. exists flag. split; [assumption | apply String.eqb_refl].
Qed.

(** A switch is on after the loop exactly when it was on before or its
    token occurs. *)
Lemma switch_after_loop (flag : string) (before after : option bool)
    (l : list string) :
  after = match last_match (is_flag flag) l with
          | Some _ => Some true
          | None => before
          end ->
  (after = Some true <-> before = Some true \/ In flag l)
  /\ (before <> Some false -> after <> Some false).
Proof.
  intros ->. rewrite <- existsb_is_flag.
  destruct (last_match (is_flag flag) l) as [u|] eqn:E.
  - assert (existsb (is_flag flag) l = true) as ->.
    { destruct (existsb (is_flag flag) l) eqn:X; [reflexivity|].
      apply last_match_none in X. congruence. }
    split; [tauto | discriminate].
  - apply last_match_none in E. rewrite E.
    split; [|tauto]. split; [tauto|]. now intros [H|H].
Qed.

Section SwitchOfDecode.

Variable field : PytestConfig -> option bool.
Variable flag : string.
Hypothesis unset_at_start : field emptyConfig = None.
Hypothesis field_after_loop : forall config l,
  field (decode_from config l)
  = match last_match (is_flag flag) l with
    | Some _ => Some true
    | None => field config
    end.

Lemma switch_of_decode (t : list string) :
  (field (decode t) = Some true <-> In flag t)
  /\ field (decode t) <> Some false
  /\ (forall config, field config = Some true ->
        field (decode_from config t) = Some true).
Proof.
  split; [|split].
  - destruct (switch_after_loop flag _ _ t (field_after_loop emptyConfig t))
      as [Hiff _].
    fold (decode t) in Hiff. rewrite Hiff, unset_at_start.
    split; [intros [H|H]; [discriminate H | exact H] | now right].
  - destruct (switch_after_loop flag _ _ t (field_after_loop emptyConfig t))
      as [_ Hnf].
    apply Hnf. rewrite unset_at_start. discriminate.
  - intros config H.
    destruct (switch_after_loop flag _ _ t (field_after_loop config t))
      as [Hiff _].
    apply Hiff. now left.
Qed.

End SwitchOfDecode.

(** C9.  For every token list [t], a switch of [decode t] is [true] exactly
    when its token occurs in [t]: captureOutput for [-s], showlocals for
    [--showlocals], headed for [--headed], slowmo for [--slowmo], delve for
    the exact token [--delve=1] ([--delve=2] does not set it).  The decoder
    never stores [false] in a switch, and a switch that is on in the loop
    state is still on after any further tokens. *)
Theorem decode_switches (t : list string) :
  ((captureOutput (decode t) = Some true <-> In "-s" t)
   /\ (showlocals (decode t) = Some true <-> In "--showlocals" t)
   /\ (headed (decode t) = Some true <-> In "--headed" t)
   /\ (slowmo (decode t) = Some true <-> In "--slowmo" t)
   /\ (delve (decode t) = Some true <-> In "--delve=1" t))
  /\ delve (decode ["--delve=2"]) = None
  /\ (captureOutput (decode t) <> Some false
      /\ showlocals (decode t) <> Some false
      /\ headed (decode t) <> Some false
      /\ slowmo (decode t) <> Some false
      /\ delve (decode t) <> Some false)
  /\ (forall config : PytestConfig,
        (captureOutput config = Some true ->
           captureOutput (decode_from config t) = Some true)
        /\ (showlocals config = Some true ->
              showlocals (decode_from config t) = Some true)
        /\ (headed config = Some true ->
              headed (decode_from config t) = Some true)
        /\ (slowmo config = Some true ->
              slowmo (decode_from config t) = Some true)
        /\ (delve config = Some true ->
              delve (decode_from config t) = Some true)).
Proof.
  pose proof (switch_of_decode captureOutput "-s" eq_refl
                decode_from_captureOutput t)
    as (S1 & S2 & S3).
  pose proof (switch_of_decode showlocals "--showlocals" eq_refl
                decode_from_showlocals t)
    as (L1 & L2 & L3).
  pose proof (switch_of_decode headed "--headed" eq_refl
                decode_from_headed t)
    as (H1 & H2 & H3).
  pose proof (switch_of_decode slowmo "--slowmo" eq_refl
                decode_from_slowmo t)
    as (M1 & M2 & M3).
  pose proof (switch_of_decode delve "--delve=1" eq_refl
                decode_from_delve t)
    as (D1 & D2 & D3).
  split; [|split; [reflexivity|split]].
  - repeat split; tauto.
  - repeat split; assumption.
  - intros config. repeat split; auto.
Qed.

Lemma decode_switches_witness :
  captureOutput (set_captureOutput (Some true) emptyConfig) = Some true
  /\ captureOutput
       (decode_from (set_captureOutput (Some true) emptyConfig)
          ["--tb=short"; "-q"; "--slowmo"]) = Some true.
Proof.
  split; [reflexivity|].
  apply (proj1 (proj2 (proj2 (proj2
           (decode_switches ["--tb=short"; "-q"; "--slowmo"])))
           (set_captureOutput (Some true) emptyConfig))).
  reflexivity.
Defined.

(* ================================================================== *)
(** ** Parameter values *)

(** Where the value has no ['='] the decoder stores all of it. *)
Lemma decode_param_value (name value : string) (l1 l2 : list string)
    (field : PytestConfig -> option string) (touches : string -> bool) :
  (forall config l,
     field (decode_from config l)
     = match last_match touches l with
       | Some u => split_eq_1 u
       | None => field config
       end) ->
  touches (name ++ "=" ++ value)%string = true ->
  existsb touches l2 = false ->
  contains "=" name = false -> contains "=" value = false ->
  field (decode (l1 ++ (name ++ "=" ++ value)%string :: l2)) = Some value.
Proof.
  intros Hfield Ht H2 Hn Hv.
  rewrite (last_token_decides l1 l2 _ field touches split_eq_1 Hfield Ht H2).
  now apply split_eq_1_plain.
Qed.

Lemma decode_tb_value (value : string) :
  contains "=" value = false ->
  tb (decode [("--tb=" ++ value)%string]) = Some value.
Proof.
  intros Hv.
  apply (decode_param_value "--tb" value [] [] tb is_tb);
    auto using decode_from_tb.
  apply (startsWith_append "--tb=" value).
Qed.

(** Scenario 2 of the specification. *)
Example decode_scenario2 :
  decode ["--numprocesses=auto"; "--browser=chromium"; "--headed"]
  = scenario2_config.
Proof. reflexivity. Qed.

(** C3.  The decoder does not keep the entire suffix of a prefixed token
    when the suffix itself contains ['=']: [arg.split('=')[1]] is the piece
    between the first and the second ['='].  For [--tb=a=b] the field [tb]
    becomes [a], while the suffix after [--tb=] is [a=b]; the same happens
    with the other four prefixes.  The encoder writes the whole value after
    the prefix, so such a value does not survive the round trip. *)
Theorem decode_truncates_value_at_eq_sign :
  tb (decode ["--tb=a=b"]) = Some "a"
  /\ tb (decode ["--tb=a=b"]) <> Some "a=b"
  /\ numprocesses (decode ["--numprocesses=a=b"]) = Some "a"
  /\ browser (decode ["--browser=a=b"]) = Some "a"
  /\ tracing (decode ["--tracing=a=b"]) = Some "a"
  /\ video (decode ["--video=a=b"]) = Some "a"
  /\ encode (set_tb (Some "a=b") emptyConfig) = ["--tb=a=b"]
  /\ decode (encode (set_tb (Some "a=b") emptyConfig))
     = set_tb (Some "a") emptyConfig.
Proof. repeat split; try reflexivity. discriminate. Qed.

(* ================================================================== *)
(** ** Totality *)

(** A stored value that is not a string makes the loop throw. *)
Example parse_loop_number :
  parse_loop emptyConfig [JString "-q"; JNumber 4]
  = Throw (TypeError "arg.startsWith is not a function").
Proof. reflexivity. Qed.

(** C8.  Neither operation fails on input of the right shape.  On a stored
    array of strings [getCurrentConfig] completes normally with the decoded
    configuration.  Given a configuration record, [updateWorkspaceConfig]
    builds the token list and reaches the store update with it; an error
    message can then only come from the host (no workspace folder, or the
    update itself rejecting). *)
Theorem codec_total :
  (forall (folder : string) (tokens : list string),
     getCurrentConfig (mkHost (Some folder) (Some (map JString tokens)))
     = Normal (decode tokens))
  /\ (forall (update : list string -> Host -> completion Host)
             (folder : string) (stored : option (list JsValue))
             (c : PytestConfig),
        let h := mkHost (Some folder) stored in
        updateWorkspaceConfig update h (Some c)
        = match update (encode c) h with
          | Normal h' =>
              (h', InformationMessage
                     "Pytest configuration updated successfully")
          | Throw error =>
              (h, ErrorMessage ("Failed to update pytest configuration: "
                                ++ error_toString error)%string)
          end)
  /\ (forall (folder : string) (stored : option (list JsValue))
             (c : PytestConfig),
        updateWorkspaceConfig store_pytestArgs (mkHost (Some folder) stored)
          (Some c)
        = (mkHost (Some folder) (Some (map JString (encode c))),
           InformationMessage "Pytest configuration updated successfully")).
Proof.
  split; [|split].
  - intros folder tokens. unfold getCurrentConfig; simpl.
    apply parse_loop_strings.
  - intros update folder stored c h.
    unfold updateWorkspaceConfig; simpl.
    now destruct (update (encode c) h).
  - reflexivity.
Qed.

(** What one call stores, the next one reads back and decodes. *)
Lemma update_then_read (folder : string) (stored : option (list JsValue))
    (c : PytestConfig) :
  getCurrentConfig
    (fst (updateWorkspaceConfig store_pytestArgs (mkHost (Some folder) stored)
            (Some c)))
  = Normal (decode (encode c)).
Proof. simpl. apply parse_loop_strings. Qed.

(* ================================================================== *)
(** ** The process-count options *)

Section Numbers.

Lemma string_of_uint_digits (d : Decimal.uint) :
  all_digits (NilEmpty.string_of_uint d) = true.
Proof. induction d; simpl; auto. Qed.

Lemma toString_digits (n : nat) : all_digits (toString n) = true.
Proof. apply string_of_uint_digits. Qed.

Lemma toString_inj (a b : nat) : toString a = toString b -> a = b.
Proof.
  unfold toString. intros E.
  apply (f_equal NilEmpty.uint_of_string) in E.
  rewrite !NilEmpty.usu in E. injection E as E.
  apply (f_equal Nat.of_uint) in E.
  now rewrite !DecimalNat.Unsigned.of_to in E.
Qed.

Lemma to_uint_not_Nil (n : nat) : Nat.to_uint n <> Decimal.Nil.
Proof.
  intros E. assert (H := DecimalNat.Unsigned.of_to n).
  rewrite E in H. simpl in H. subst n. discriminate E.
Qed.

Lemma toString_not_empty (n : nat) : toString n <> "".
Proof.
  unfold toString. intros E. apply (to_uint_not_Nil n).
  apply (f_equal NilEmpty.uint_of_string) in E.
  rewrite NilEmpty.usu in E. simpl in E. now injection E.
Qed.

Lemma parse_digits_uint (d : Decimal.uint) (a : nat) :
  parse_digits 10 (NilEmpty.string_of_uint d) (Some a)
  = Some (Nat.of_uint_acc d a).
Proof.
  revert a; induction d; intros a; simpl; try reflexivity;
    rewrite IHd; f_equal; f_equal; rewrite Nat.tail_mul_spec; lia.
Qed.

Lemma parse_digits_uint_start (d : Decimal.uint) :
  d <> Decimal.Nil ->
  parse_digits 10 (NilEmpty.string_of_uint d) None = Some (Nat.of_uint d).
Proof.
  unfold Nat.of_uint.
  destruct d; intros H; try contradiction; simpl;
    rewrite parse_digits_uint; reflexivity.
Qed.

Lemma parseInt_uint (d : Decimal.uint) :
  d <> Decimal.Nil ->
  parseInt (NilEmpty.string_of_uint d) = Some (Z.of_nat (Nat.of_uint d)).
Proof.
  intros H. pose proof (parse_digits_uint_start d H) as P.
  destruct d as [|d|d|d|d|d|d|d|d|d|d]; try contradiction;
    try (unfold parseInt; simpl in *; now rewrite P).
  destruct d; unfold parseInt; simpl in *;
    first [reflexivity | now rewrite P].
Qed.

(** Reading back what [toString] wrote. *)
Lemma parseInt_toString (n : nat) : parseInt (toString n) = Some (Z.of_nat n).
Proof.
  unfold toString. rewrite parseInt_uint by apply to_uint_not_Nil.
  now rewrite DecimalNat.Unsigned.of_to.
Qed.

End Numbers.

Section ProcessOptions.

(** The loop appends the even numbers from [i] up to [cpuCount]. *)
Lemma push_even_options_evens (cpuCount i : nat) (options : list string) :
  push_even_options cpuCount i options
  = options ++ map toString (evens i ((cpuCount + 2 - i) / 2)).
Proof.
  funelim (push_even_options cpuCount i options).
  - match goal with
    | IH : push_even_options _ _ _ = _ ++ _ |- _ => rewrite IH
    end.
    replace ((cpuCount + 2 - i) / 2) with (S ((cpuCount + 2 - (i + 2)) / 2)).
    + simpl. now rewrite <- app_assoc.
    + replace (cpuCount + 2 - i) with (cpuCount + 2 - (i + 2) + 1 * 2) by lia.
      rewrite Nat.div_add by discriminate. lia.
  - rewrite Nat.div_small by lia. simpl. now rewrite app_nil_r.
Qed.

Lemma evens_seq (i n : nat) :
  evens i n = map (fun k => i + 2 * k) (seq 0 n).
Proof.
  revert i; induction n as [|n IH]; intros i; simpl; [reflexivity|].
  rewrite IH, <- seq_shift, map_map. f_equal; [lia|].
  apply map_ext. intros k. lia.
Qed.

Lemma In_evens (i n x : nat) :
  In x (evens i n) <-> exists k, k < n /\ x = i + 2 * k.
Proof.
  rewrite evens_seq, in_map_iff. split.
  - intros (k & E & H). apply in_seq in H. exists k. split; [lia | now subst].
  - intros (k & H & E). exists k. split; [now subst|]. apply in_seq. lia.
Qed.

Lemma NoDup_evens (i n : nat) : NoDup (evens i n).
Proof.
  revert i; induction n as [|n IH]; intros i; simpl; constructor; [|apply IH].
  rewrite In_evens. intros (k & _ & E). lia.
Qed.

Lemma last_evens (i n : nat) (options : list string) :
  nth_error (options ++ map toString (evens i (S n)))
    (length (options ++ map toString (evens i (S n))) - 1)
  = Some (toString (i + 2 * n)).
Proof.
  rewrite evens_seq, seq_S, !map_app, app_assoc. simpl.
  rewrite length_app. simpl.
  rewrite nth_error_app2 by lia.
  replace (_ - _) with 0 by lia. reflexivity.
Qed.

End ProcessOptions.

(** The options, with the loop and the parity test worked out. *)
Lemma getProcessOptions_evens (cpuCount : nat) :
  getProcessOptions cpuCount
  = ["none"; "auto"; "1"]
    ++ (if (2 <? cpuCount)%nat
        then map toString (evens 2 (cpuCount / 2))
             ++ (if Nat.odd cpuCount then [toString cpuCount] else [])
        else []).
Proof.
  unfold getProcessOptions.
  destruct (2 <? cpuCount)%nat eqn:Hc; [|reflexivity].
  apply Nat.ltb_lt in Hc.
  rewrite push_even_options_evens.
  replace ((cpuCount + 2 - 2) / 2) with (cpuCount / 2) by (f_equal; lia).
  rewrite andb_true_r.
  assert (Hodd : negb (cpuCount mod 2 =? 0)%nat = Nat.odd cpuCount).
  { rewrite <- Nat.negb_even. f_equal.
    destruct (Nat.even cpuCount) eqn:E.
    - apply Nat.even_spec in E. destruct E as [k ->].
      rewrite Nat.mul_comm, Nat.Div0.mod_mul. reflexivity.
    - apply Nat.eqb_neq. intros M.
      apply Nat.Lcm0.mod_divide in M. destruct M as [k ->].
      rewrite Nat.even_mul in E. simpl in E. now rewrite orb_true_r in E. }
  rewrite Hodd. destruct (Nat.odd cpuCount) eqn:Ho.
  - destruct (cpuCount / 2) as [|n] eqn:Hd.
    { assert (cpuCount < 2); [|lia].
      apply Nat.div_small_iff in Hd; [lia | discriminate]. }
    rewrite last_evens, parseInt_toString.
    assert (2 + 2 * n < cpuCount) as L.
    { apply Nat.odd_spec in Ho. destruct Ho as [k ->].
      replace (2 * k + 1) with (1 + k * 2) in Hd by lia.
      rewrite Nat.div_add in Hd by discriminate. simpl in Hd. lia. }
    apply Nat2Z.inj_lt in L. apply Z.ltb_lt in L. rewrite L.
    now rewrite <- app_assoc.
  - now rewrite app_nil_r.
Qed.

(** X1.  [getProcessOptions] in closed form: the options are [none], [auto],
    [1]; on a machine with more than two cores they are followed by the even
    numbers from 2 up to the core count and, when the count is odd, by the
    count itself.  The test [lastOption < cpuCount] in the source never
    fails when it is reached. *)
Theorem getProcessOptions_closed_form (cpuCount : nat) :
  getProcessOptions cpuCount
  = ["none"; "auto"; "1"]
    ++ (if (2 <? cpuCount)%nat
        then map toString (evens 2 (cpuCount / 2))
             ++ (if Nat.odd cpuCount then [toString cpuCount] else [])
        else []).
Proof. exact (getProcessOptions_evens cpuCount). Qed.

Lemma getProcessOptions_counts (cpuCount : nat) :
  getProcessOptions cpuCount
  = "none" :: "auto" :: map toString (offered_counts cpuCount).
Proof.
  rewrite getProcessOptions_evens. unfold offered_counts. simpl.
  do 3 f_equal.
  destruct (2 <? cpuCount)%nat; [|reflexivity].
  rewrite map_app. f_equal. now destruct (Nat.odd cpuCount).
Qed.

Lemma In_offered_counts (cpuCount n : nat) :
  In n (offered_counts cpuCount)
  <-> n = 1
      \/ (2 < cpuCount
          /\ ((Nat.even n = true /\ 2 <= n <= cpuCount) \/ n = cpuCount)).
Proof.
  unfold offered_counts. cbn [In].
  destruct (Nat.ltb_spec 2 cpuCount) as [Hc|Hc].
  2:{ cbn [In]. split; [intros [H|[]]; auto | intros [H|[H _]]; [auto | lia]]. }
  rewrite in_app_iff, In_evens.
  pose proof (Nat.div_mod_eq cpuCount 2) as D.
  pose proof (Nat.mod_upper_bound cpuCount 2 ltac:(discriminate)) as U.
  split.
  - intros [H|[(k & Hk & ->)|H]]; [auto| |].
    + right. split; [assumption|]. left. split; [|lia].
      replace (2 + 2 * k) with (2 * (1 + k)) by lia.
      rewrite Nat.even_mul. reflexivity.
    + destruct (Nat.odd cpuCount); [|destruct H]. destruct H as [H|[]].
      right. split; [assumption|]. now right.
  - intros [H|[_ [[He Hr]|H]]]; [auto| |].
    + right. left. apply Nat.even_spec in He. destruct He as [m ->].
      exists (m - 1). split; lia.
    + subst n. right.
      destruct (Nat.odd cpuCount) eqn:Ho; [right; now left|].
      left. rewrite <- Nat.negb_even in Ho. apply negb_false_iff in Ho.
      apply Nat.even_spec in Ho. destruct Ho as [m E].
      exists (m - 1). split; lia.
Qed.

Lemma NoDup_offered_counts (cpuCount : nat) : NoDup (offered_counts cpuCount).
Proof.
  unfold offered_counts. constructor.
  - destruct (2 <? cpuCount)%nat eqn:Hc; [|intros []].
    apply Nat.ltb_lt in Hc.
    rewrite in_app_iff, In_evens. intros [(k & _ & E)|H]; [lia|].
    destruct (Nat.odd cpuCount); [|destruct H]. destruct H as [H|[]]. lia.
  - destruct (2 <? cpuCount)%nat; [|constructor].
    destruct (Nat.odd cpuCount) eqn:Ho.
    + apply NoDup_app; [apply NoDup_evens | repeat constructor; intros [] |].
      intros x Hx [<-|[]]. apply In_evens in Hx. destruct Hx as (k & _ & E).
      rewrite E in Ho. replace (2 + 2 * k) with (2 * (1 + k)) in Ho by lia.
      rewrite Nat.odd_mul in Ho. discriminate Ho.
    + rewrite app_nil_r. apply NoDup_evens.
Qed.

Lemma digits_not_word (n : nat) (w : string) :
  all_digits w = false -> toString n <> w.
Proof. intros H E. rewrite <- E, toString_digits in H. discriminate. Qed.

(** The options are pairwise different. *)
Lemma getProcessOptions_distinct (cpuCount : nat) :
  NoDup (getProcessOptions cpuCount).
Proof.
  rewrite getProcessOptions_counts.
  assert (ND : NoDup (map toString (offered_counts cpuCount))).
  { apply Finite.Injective_map_NoDup; [|apply NoDup_offered_counts].
    intros a b. apply toString_inj. }
  constructor; [|constructor; [|exact ND]].
  - intros [H|H]; [discriminate|].
    apply in_map_iff in H. destruct H as (n & E & _).
    now apply (digits_not_word n "none").
  - intros H. apply in_map_iff in H. destruct H as (n & E & _).
    now apply (digits_not_word n "auto").
Qed.

(** X2.  [getProcessOptions] never offers the same option twice. *)
Theorem getProcessOptions_NoDup (cpuCount : nat) :
  NoDup (getProcessOptions cpuCount).
Proof. exact (getProcessOptions_distinct cpuCount). Qed.

(** X3.  Which process counts are offered: [n] is, exactly when [n = 1], or
    the machine has more than two cores and [n] is an even number between 2
    and the core count or the core count itself.  So the machine's own core
    count is offered exactly when it is 1 or more than 2: on a machine with
    two cores the option [2] is missing. *)
Theorem getProcessOptions_offers (cpuCount n : nat) :
  (In (toString n) (getProcessOptions cpuCount)
   <-> n = 1
       \/ (2 < cpuCount
           /\ ((Nat.even n = true /\ 2 <= n <= cpuCount) \/ n = cpuCount)))
  /\ (In (toString cpuCount) (getProcessOptions cpuCount)
      <-> cpuCount = 1 \/ 2 < cpuCount).
Proof.
  assert (G : forall m, In (toString m) (getProcessOptions cpuCount)
                        <-> In m (offered_counts cpuCount)).
  { intros m. rewrite getProcessOptions_counts. cbn [In]. split.
    - intros [H|[H|H]].
      + symmetry in H. now apply digits_not_word in H.
      + symmetry in H. now apply digits_not_word in H.
      + apply in_map_iff in H. destruct H as (k & E & H).
        apply toString_inj in E. now subst.
    - intros H. right. right. now apply in_map. }
  split.
  - rewrite G. apply In_offered_counts.
  - rewrite G, In_offered_counts. split.
    + intros [H|[H _]]; auto.
    + intros [H|H]; auto.
Qed.

Lemma getProcessOptions_domain (cpuCount : nat) (o : string) :
  In o (getProcessOptions cpuCount) ->
  o = "none" \/ numprocesses_domain o = true.
Proof.
  rewrite getProcessOptions_counts. intros [<-|[<-|H]]; auto.
  right. apply in_map_iff in H. destruct H as (n & <- & _).
  unfold numprocesses_domain. rewrite toString_digits, andb_true_r.
  destruct (String.eqb_spec (toString n) "") as [E|_];
    [now apply toString_not_empty in E | apply orb_true_r].
Qed.

(** X4.  Every option of [getProcessOptions] other than [none] can be
    saved and read back: the encoder writes [--numprocesses=<option>] for
    it, and decoding the encoded list gives the option again. *)
Theorem offered_count_roundtrip (cpuCount : nat) (o : string)
    (c : PytestConfig) :
  In o (getProcessOptions cpuCount) -> o <> "none" ->
  In ("--numprocesses=" ++ o)%string (encode (set_numprocesses (Some o) c))
  /\ numprocesses (decode (encode (set_numprocesses (Some o) c))) = Some o.
Proof.
  intros Hin Hne.
  destruct (getProcessOptions_domain cpuCount o Hin) as [->|Hd];
    [contradiction|].
  apply numprocesses_domain_plain in Hd.
  split.
  - apply (token_of_field_emitted is_numprocesses).
    rewrite encode_numprocesses_token. simpl.
    unfold plain in Hd.
    apply andb_true_iff in Hd as [Hd _]. apply andb_true_iff in Hd as [H0 H1].
    apply negb_true_iff in H0, H1. now rewrite H0, H1.
  - now apply roundtrip_numprocesses.
Qed.

Lemma offered_count_roundtrip_witness :
  In "6" (getProcessOptions 8) /\ "6" <> "none"
  /\ numprocesses (decode (encode (set_numprocesses (Some "6") emptyConfig)))
     = Some "6".
Proof.
  assert (Hin : In "6" (getProcessOptions 8)).
  { vm_compute. tauto. }
  assert (Hne : "6" <> "none") by discriminate.
  split; [exact Hin|]. split; [exact Hne|].
  exact (proj2 (offered_count_roundtrip 8 "6" emptyConfig Hin Hne)).
Defined.

(* ================================================================== *)
(** ** The codec as a normal form *)

Lemma split_pieces_no_sep (sep : ascii) (s : string) :
  Forall (fun piece => contains sep piece = false) (split sep s).
Proof.
  induction s as [|c s IH]; simpl.
  - repeat constructor.
  - destruct (Ascii.eqb c sep) eqn:Hc.
    + constructor; [reflexivity | exact IH].
    + destruct (split sep s) as [|piece pieces].
      * repeat constructor. simpl. now rewrite Hc.
      * inversion IH; subst. constructor; [|assumption].
        simpl. now rewrite Hc.
Qed.

Lemma split_eq_1_eq_free (arg : string) : eq_free (split_eq_1 arg) = true.
Proof.
  unfold split_eq_1, eq_free.
  destruct (nth_error (split "=" arg) 1) as [v|] eqn:E; [|reflexivity].
  apply nth_error_In in E.
  pose proof (split_pieces_no_sep "=" arg) as F.
  rewrite Forall_forall in F. now rewrite (F v E).
Qed.

Lemma verbosity_of_flag_domain (t : string) :
  absent_or verbosity_domain (verbosity_of_flag t) = true.
Proof.
  unfold verbosity_of_flag.
  repeat match goal with
         | |- context [if ?b then _ else _] => destruct b
         end; reflexivity.
Qed.

(** The fields of a decoded record. *)
Lemma decode_range_fields (l : list string) :
  eq_free (tb (decode l)) = true
  /\ eq_free (numprocesses (decode l)) = true
  /\ eq_free (browser (decode l)) = true
  /\ eq_free (tracing (decode l)) = true
  /\ eq_free (video (decode l)) = true
  /\ absent_or verbosity_domain (verbosity (decode l)) = true
  /\ switches_unset_or_true (decode l) = true.
Proof.
  unfold decode, switches_unset_or_true.
  rewrite decode_from_tb, decode_from_numprocesses, decode_from_browser,
    decode_from_tracing, decode_from_video, decode_from_verbosity,
    decode_from_captureOutput, decode_from_showlocals, decode_from_headed,
    decode_from_delve, decode_from_slowmo.
  repeat split;
    repeat match goal with
           | |- context [last_match ?p l] => destruct (last_match p l)
           end;
    simpl; auto using split_eq_1_eq_free, verbosity_of_flag_domain.
Qed.

(** X5.  What the decoder can produce: whatever the token list, no decoded
    parameter value contains ['='], the verbosity is absent or one of the
    four names, and no switch holds [false]. *)
Theorem decode_range (l : list string) :
  eq_free (tb (decode l)) = true
  /\ eq_free (numprocesses (decode l)) = true
  /\ eq_free (browser (decode l)) = true
  /\ eq_free (tracing (decode l)) = true
  /\ eq_free (video (decode l)) = true
  /\ absent_or verbosity_domain (verbosity (decode l)) = true
  /\ switches_unset_or_true (decode l) = true.
Proof. exact (decode_range_fields l). Qed.

Section Reencode.

Variable c : PytestConfig.

Lemma decoded_tb :
  tb (decode (encode c))
  = match param_token "--tb=" (tb c) with
    | Some t => split_eq_1 t
    | None => None
    end.
Proof. unfold decode. now rewrite decode_from_tb, encode_tb_token. Qed.

Lemma decoded_numprocesses :
  numprocesses (decode (encode c))
  = match param_token "--numprocesses=" (numprocesses c) with
    | Some t => split_eq_1 t
    | None => None
    end.
Proof.
  unfold decode. now rewrite decode_from_numprocesses, encode_numprocesses_token.
Qed.

Lemma decoded_browser :
  browser (decode (encode c))
  = match param_token "--browser=" (browser c) with
    | Some t => split_eq_1 t
    | None => None
    end.
Proof. unfold decode. now rewrite decode_from_browser, encode_browser_token. Qed.

Lemma decoded_tracing :
  tracing (decode (encode c))
  = match param_token "--tracing=" (tracing c) with
    | Some t => split_eq_1 t
    | None => None
    end.
Proof. unfold decode. now rewrite decode_from_tracing, encode_tracing_token. Qed.

Lemma decoded_video :
  video (decode (encode c))
  = match param_token "--video=" (video c) with
    | Some t => split_eq_1 t
    | None => None
    end.
Proof. unfold decode. now rewrite decode_from_video, encode_video_token. Qed.

Lemma decoded_verbosity :
  verbosity (decode (encode c))
  = match verbosity_token (verbosity c) with
    | Some t => verbosity_of_flag t
    | None => None
    end.
Proof.
  unfold decode. now rewrite decode_from_verbosity, encode_verbosity_token.
Qed.

End Reencode.

(** The token of a value that went through its own token once. *)
Lemma param_token_again (name flag : string) (f : option string) :
  flag = (name ++ "=")%string ->
  contains "=" name = false -> eq_free f = true ->
  param_token flag
    match param_token flag f with
    | Some t => split_eq_1 t
    | None => None
    end
  = param_token flag f.
Proof.
  intros -> Hn Hf. destruct f as [v|]; [|reflexivity].
  simpl in Hf. apply negb_true_iff in Hf.
  destruct (param_token (name ++ "=") (Some v)) as [t|] eqn:E; [|reflexivity].
  rewrite <- E. f_equal.
  simpl in E. destruct ((v =? "") || (v =? "none")); [discriminate|].
  injection E as <-.
  rewrite append_assoc. now apply split_eq_1_plain.
Qed.

Lemma verbosity_token_again (f : option string) :
  verbosity_token
    match verbosity_token f with
    | Some t => verbosity_of_flag t
    | None => None
    end
  = verbosity_token f.
Proof.
  destruct f as [v|]; [|reflexivity]. simpl.
  repeat match goal with
         | |- context [if (v =? ?b) then _ else _] => destruct (v =? b)
         end; reflexivity.
Qed.

Lemma flag_token_again (flag : string) (f : option bool) :
  flag_token flag
    match flag_token flag f with Some _ => Some true | None => None end
  = flag_token flag f.
Proof. now destruct f as [[|]|]. Qed.

(** Encoding once more after a decode. *)
Lemma reencode_eq_free (c : PytestConfig) :
  eq_free (tb c) = true -> eq_free (numprocesses c) = true ->
  eq_free (browser c) = true -> eq_free (tracing c) = true ->
  eq_free (video c) = true ->
  encode (decode (encode c)) = encode c.
Proof.
  intros Htb Hnp Hbr Htr Hvi.
  rewrite (encode_eq_spec (decode (encode c))).
  unfold encode_spec, field_tokens.
  rewrite decoded_tb, decoded_numprocesses, decoded_browser, decoded_tracing,
    decoded_video, decoded_verbosity, decoded_captureOutput,
    decoded_showlocals, decoded_headed, decoded_delve, decoded_slowmo.
  rewrite (param_token_again "--tb" "--tb=" _ eq_refl eq_refl Htb),
    (param_token_again "--numprocesses" "--numprocesses=" _ eq_refl eq_refl Hnp),
    (param_token_again "--browser" "--browser=" _ eq_refl eq_refl Hbr),
    (param_token_again "--tracing" "--tracing=" _ eq_refl eq_refl Htr),
    (param_token_again "--video" "--video=" _ eq_refl eq_refl Hvi),
    verbosity_token_again, !flag_token_again.
  symmetry. apply encode_eq_spec.
Qed.

(** X6.  If no parameter value of a configuration contains ['='], then
    encoding it, decoding the tokens and encoding again gives the same token
    list as encoding it once. *)
Theorem reencode_stable (c : PytestConfig) :
  eq_free (tb c) = true -> eq_free (numprocesses c) = true ->
  eq_free (browser c) = true -> eq_free (tracing c) = true ->
  eq_free (video c) = true ->
  encode (decode (encode c)) = encode c.
Proof. exact (reencode_eq_free c). Qed.

Lemma reencode_stable_witness :
  eq_free (tb form_config) = true
  /\ encode (decode (encode form_config)) = encode form_config.
Proof.
  split; [reflexivity|].
  apply (reencode_stable form_config); reflexivity.
Defined.

(** X7.  Saving twice is saving once: for every token list, decoding it and
    encoding the result is idempotent. *)
Theorem canonical_args_idempotent (args : list string) :
  encode (decode (encode (decode args))) = encode (decode args).
Proof.
  destruct (decode_range_fields args) as (H1 & H2 & H3 & H4 & H5 & _).
  now apply reencode_eq_free.
Qed.

Lemma In_cat_options {A} (x : A) (os : list (option A)) :
  In x (cat_options os) <-> In (Some x) os.
Proof.
  induction os as [|[y|] os IH]; simpl.
  - tauto.
  - rewrite IH. split; intros [H|H]; auto; left; congruence.
  - rewrite IH. split; [auto | intros [H|H]; [discriminate | auto]].
Qed.

Lemma param_token_inv (flag : string) (f : option string) (t : string) :
  param_token flag f = Some t ->
  exists v, t = (flag ++ v)%string /\ f = Some v /\ v <> "" /\ v <> "none".
Proof.
  destruct f as [v|]; simpl; [|discriminate].
  destruct (String.eqb_spec v ""); simpl; [discriminate|].
  destruct (String.eqb_spec v "none"); simpl; [discriminate|].
  intros [= <-]. now exists v.
Qed.

Lemma verbosity_token_inv (f : option string) (t : string) :
  verbosity_token f = Some t -> is_verbosity_flag t = true.
Proof.
  destruct f as [v|]; simpl; [|discriminate].
  repeat match goal with
         | |- context [if (v =? ?b) then _ else _] => destruct (v =? b)
         end; try discriminate; now intros [= <-].
Qed.

Lemma flag_token_inv (flag : string) (f : option bool) (t : string) :
  flag_token flag f = Some t -> t = flag /\ f = Some true.
Proof.
  unfold flag_token. destruct f as [[|]|]; simpl; try discriminate.
  now intros [= <-].
Qed.

Lemma recognized_param (flag v : string) :
  In flag ["--tb="; "--numprocesses="; "--browser="; "--tracing="; "--video="] ->
  recognized (flag ++ v) = true.
Proof.
  intros H. repeat (destruct H as [<-|H]); try contradiction;
    unfold recognized, is_tb, is_numprocesses, is_browser, is_tracing,
      is_video;
    rewrite (startsWith_append _ v); reflexivity.
Qed.

Lemma recognized_verbosity_flag (t : string) :
  is_verbosity_flag t = true -> recognized t = true.
Proof. unfold recognized. intros ->. now rewrite orb_true_r. Qed.

(** X8.  The encoder only writes tokens the decoder recognizes; a token the
    decoder ignores is therefore never written back. *)
Theorem encode_tokens_recognized (c : PytestConfig) (t : string) :
  In t (encode c) -> recognized t = true.
Proof.
  rewrite encode_eq_spec. unfold encode_spec, field_tokens.
  rewrite In_cat_options. simpl.
  intros H.
  repeat (destruct H as [H|H]); try contradiction.
  all: first
    [ apply param_token_inv in H; destruct H as (v & -> & _);
      apply recognized_param; simpl; tauto
    | apply verbosity_token_inv in H; now apply recognized_verbosity_flag
    | apply flag_token_inv in H; destruct H as (-> & _); reflexivity ].
Qed.

Lemma encode_tokens_recognized_witness :
  In "-v" (encode scenario1_config) /\ recognized "-v" = true.
Proof.
  assert (Hin : In "-v" (encode scenario1_config)).
  { vm_compute. tauto. }
  split; [exact Hin|].
  exact (encode_tokens_recognized scenario1_config "-v" Hin).
Defined.

(* ================================================================== *)
(** ** The host, once more *)

Lemma parse_loop_all_strings (args : list JsValue) (config : PytestConfig) :
  forallb is_JString args = true ->
  exists l, args = map JString l
            /\ parse_loop config args = Normal (decode_from config l).
Proof.
  revert config; induction args as [|v args IH]; intros config H.
  - now exists [].
  - simpl in H. apply andb_true_iff in H as [Hv H].
    destruct v; try discriminate Hv.
    destruct (IH (parse_arg config s) H) as (l & -> & E).
    exists (s :: l). split; [reflexivity | exact E].
Qed.

Lemma parse_loop_some_other (args : list JsValue) (config : PytestConfig) :
  forallb is_JString args = false ->
  exists m, parse_loop config args = Throw (TypeError m).
Proof.
  revert config; induction args as [|v args IH]; intros config H.
  - discriminate H.
  - destruct v; simpl in *; eauto.
Qed.

(** X9.  With a workspace folder, [getCurrentConfig] completes normally
    exactly when every stored value of [pytestArgs] is a string; otherwise
    it throws a [TypeError], and so does [_getHtmlForWebview], which calls
    it without a [try]. *)
Theorem getCurrentConfig_throws_iff (cpuCount : nat) (folder : string)
    (args : list JsValue) :
  let h := mkHost (Some folder) (Some args) in
  ((exists c, getCurrentConfig h = Normal c)
   <-> forallb is_JString args = true)
  /\ (forallb is_JString args = false ->
      exists m, getCurrentConfig h = Throw (TypeError m)
                /\ getHtmlForWebview cpuCount h = Throw (TypeError m)).
Proof.
  intros h. unfold getHtmlForWebview, getCurrentConfig. simpl. split.
  - split.
    + intros (c & E). destruct (forallb is_JString args) eqn:F; [reflexivity|].
      destruct (parse_loop_some_other args emptyConfig F) as (m & T).
      congruence.
    + intros F. destruct (parse_loop_all_strings args emptyConfig F)
        as (l & _ & E). eauto.
  - intros F. destruct (parse_loop_some_other args emptyConfig F) as (m & T).
    exists m. now rewrite T.
Qed.

Lemma getCurrentConfig_throws_iff_witness :
  forallb is_JString [JString "-q"; JNumber 4] = false
  /\ exists m,
       getCurrentConfig (mkHost (Some "/w") (Some [JString "-q"; JNumber 4]))
       = Throw (TypeError m)
       /\ getHtmlForWebview 4
            (mkHost (Some "/w") (Some [JString "-q"; JNumber 4]))
          = Throw (TypeError m).
Proof.
  split; [reflexivity|].
  apply (proj2 (getCurrentConfig_throws_iff 4 "/w"
                  [JString "-q"; JNumber 4])).
  reflexivity.
Defined.

(** X10.  After [updateWorkspaceConfig] has stored the tokens of a
    normalized configuration, [getCurrentConfig] on the new state of the
    host completes normally with a semantically equal configuration. *)
Theorem update_then_read_equiv (folder : string)
    (stored : option (list JsValue)) (c : PytestConfig) :
  normalized c = true ->
  exists c',
    getCurrentConfig
      (fst (updateWorkspaceConfig store_pytestArgs
              (mkHost (Some folder) stored) (Some c)))
    = Normal c'
    /\ config_equiv c' c.
Proof.
  intros H. exists (decode (encode c)). split.
  - apply update_then_read.
  - unfold normalized in H.
    repeat (apply andb_true_iff in H; destruct H as [H ?]).
    apply roundtrip_plain;
      eauto using absent_or_impl, tb_domain_plain, numprocesses_domain_plain,
        browser_domain_plain, tracing_domain_plain, video_domain_plain.
Qed.

Lemma update_then_read_equiv_witness :
  normalized form_config = true
  /\ exists c',
       getCurrentConfig
         (fst (updateWorkspaceConfig store_pytestArgs
                 (mkHost (Some "/w") None) (Some form_config)))
       = Normal c'
       /\ config_equiv c' form_config.
Proof.
  split; [reflexivity|].
  apply (update_then_read_equiv "/w" None form_config). reflexivity.
Defined.

(** X11.  [activate] registers a provider only when there is a workspace
    folder, and the provider's [_workspaceFolder] is the first of the
    workspace folders.  For a registered provider [updateWorkspaceConfig]
    never reports "No workspace folder found" and [getCurrentConfig] always
    parses the stored list. *)
Theorem activated_provider_has_folder (workspaceFolders : option (list string))
    (provider : option string) :
  (activate workspaceFolders = None
   <-> workspaceFolders = None \/ workspaceFolders = Some [])
  /\ (activate workspaceFolders = Some provider ->
      exists folder rest,
        workspaceFolders = Some (folder :: rest)
        /\ provider = Some folder
        /\ (forall update stored config,
              snd (updateWorkspaceConfig update (mkHost provider stored)
                     config)
              <> ErrorMessage "No workspace folder found")
        /\ (forall stored,
              getCurrentConfig (mkHost provider (Some stored))
              = parse_loop emptyConfig stored)).
Proof.
  split.
  - destruct workspaceFolders as [[|folder rest]|]; simpl.
    + split; auto.
    + split; [discriminate | intros [H|H]; discriminate H].
    + split; auto.
  - destruct workspaceFolders as [[|folder rest]|]; simpl; try discriminate.
    intros [= <-]. exists folder, rest.
    split; [reflexivity|]. split; [reflexivity|]. split.
    + intros update stored config. unfold updateWorkspaceConfig. simpl.
      destruct config as [c|]; simpl; [|discriminate].
      destruct (update (encode c) _); simpl; discriminate.
    + reflexivity.
Qed.

Lemma activated_provider_has_folder_witness :
  activate (Some ["/w"; "/other"]) = Some (Some "/w")
  /\ exists folder rest,
       Some ["/w"; "/other"] = Some (folder :: rest)
       /\ Some "/w" = Some folder.
Proof.
  split; [reflexivity|].
  destruct (proj2 (activated_provider_has_folder (Some ["/w"; "/other"])
                     (Some "/w")) eq_refl)
    as (folder & rest & E1 & E2 & _).
  now exists folder, rest.
Defined.

(* ================================================================== *)
(** ** The form *)

Section SelectBoxes.

Variable mark : string -> bool.

Lemma selected_count_map (x : string) (opts : list string) :
  NoDup opts -> (forall o, mark o = true -> o = x) ->
  selected_count (map (fun o => (o, mark o)) opts) <= 1.
Proof.
  unfold selected_count. intros ND Hx.
  induction ND as [|o opts Hnotin ND IH]; simpl; [lia|].
  destruct (mark o) eqn:Ho; simpl; [|exact IH].
  apply Hx in Ho. subst o.
  assert (filter snd (map (fun o => (o, mark o)) opts) = []) as ->;
    [|simpl; lia].
  clear IH ND. induction opts as [|o opts IH]; simpl; [reflexivity|].
  destruct (mark o) eqn:Ho; simpl.
  - apply Hx in Ho. subst o. exfalso. apply Hnotin. now left.
  - apply IH. intros H. apply Hnotin. now right.
Qed.

(** The marked option is the selected one. *)
Lemma select_value_marked (x : string) (opts : list string) :
  (forall o, mark o = true -> o = x) -> mark x = true -> In x opts ->
  select_value (map (fun o => (o, mark o)) opts) = x.
Proof.
  intros Hx Hm Hin. unfold select_value.
  destruct (last_match snd (map (fun o => (o, mark o)) opts)) as [y|] eqn:E.
  - apply last_match_holds in E. destruct E as [Hy Hs].
    apply in_map_iff in Hy. destruct Hy as (o & <- & _). simpl in *. auto.
  - apply last_match_none in E.
    assert (existsb snd (map (fun o => (o, mark o)) opts) = true);
      [|congruence].
    apply existsb_exists. exists (x, mark x). split; [|exact Hm].
    apply in_map_iff. now exists x.
Qed.

(** Without a marked option the first one is selected. *)
Lemma select_value_unmarked (first : string) (opts : list string) :
  (forall o, In o (first :: opts) -> mark o = false) ->
  select_value (map (fun o => (o, mark o)) (first :: opts)) = first.
Proof.
  intros H. unfold select_value.
  assert (existsb snd (map (fun o => (o, mark o)) (first :: opts)) = false)
    as E.
  { destruct (existsb snd _) eqn:X; [|reflexivity].
    apply existsb_exists in X. destruct X as (y & Hy & Hs).
    apply in_map_iff in Hy. destruct Hy as (o & <- & Ho). simpl in Hs.
    rewrite (H o Ho) in Hs. discriminate. }
  apply last_match_none in E. now rewrite E.
Qed.

End SelectBoxes.

Lemma select_value_offered (options : list html_option) :
  options <> [] -> In (select_value options) (offered options).
Proof.
  intros H. unfold select_value, offered.
  destruct (last_match snd options) as [y|] eqn:E.
  - apply last_match_holds in E. now apply in_map.
  - destruct options as [|o options]; [contradiction | now left].
Qed.

Lemma getProcessOptions_head (cpuCount : nat) :
  exists rest, getProcessOptions cpuCount = "none" :: rest.
Proof. rewrite getProcessOptions_counts. eauto. Qed.

(** The marks of the select box for the process count. *)
Lemma numprocesses_mark_unique (f : option string) (o : string) :
  ((o =? "none") && is_undefined f) || strict_eq f o = true ->
  o = match f with Some v => v | None => "none" end.
Proof.
  destruct f as [v|]; simpl.
  - rewrite andb_false_r. simpl. intros H. apply String.eqb_eq in H. auto.
  - rewrite andb_true_r, orb_false_r. apply String.eqb_eq.
Qed.

Ltac enumerate_value v :=
  repeat match goal with
         | |- context [(v =? ?s)%string] =>
             destruct (String.eqb_spec v s); [subst v|]
         end.

Ltac count_marks v :=
  unfold selected_count; cbn [strict_eq is_undefined];
  enumerate_value v; simpl; try lia; destruct v; simpl; lia.

(** X12.  In the document produced for any configuration and any core
    count, each of the six select boxes has at most one option carrying
    [selected]. *)
Theorem at_most_one_option_selected (cpuCount : nat) (c : PytestConfig) :
  let html := html_of_config cpuCount c in
  selected_count (select_tb html) <= 1
  /\ selected_count (select_numprocesses html) <= 1
  /\ selected_count (select_verbosity html) <= 1
  /\ selected_count (select_browser html) <= 1
  /\ selected_count (select_tracing html) <= 1
  /\ selected_count (select_video html) <= 1.
Proof.
  cbn zeta. cbn [html_of_config select_tb select_numprocesses select_verbosity
                 select_browser select_tracing select_video].
  repeat split.
  - destruct (tb c) as [v|]; [count_marks v | unfold selected_count; simpl; lia].
  - apply selected_count_map
      with (x := match numprocesses c with Some v => v | None => "none" end).
    + apply getProcessOptions_distinct.
    + apply numprocesses_mark_unique.
  - destruct (verbosity c) as [v|];
      [count_marks v | unfold selected_count; simpl; lia].
  - destruct (browser c) as [v|];
      [count_marks v | unfold selected_count; simpl; lia].
  - destruct (tracing c) as [v|];
      [count_marks v | unfold selected_count; simpl; lia].
  - destruct (video c) as [v|];
      [count_marks v | unfold selected_count; simpl; lia].
Qed.

Lemma offered_numprocesses (cpuCount : nat) (c : PytestConfig) :
  offered (select_numprocesses (html_of_config cpuCount c))
  = getProcessOptions cpuCount.
Proof.
  unfold offered. simpl. rewrite map_map. simpl. apply map_id.
Qed.







(** X14.  The form loaded from the document of any configuration shows, in
    every select box, one of the values that box offers. *)
Theorem loaded_form_reachable (cpuCount : nat) (c : PytestConfig) :
  reachable (html_of_config cpuCount c) (load (html_of_config cpuCount c)).
Proof.
  unfold reachable, load.
  cbn [value_tb value_numprocesses value_verbosity value_browser
       value_tracing value_video].
  repeat split; apply select_value_offered; try discriminate.
  cbn [html_of_config select_numprocesses].
  destruct (getProcessOptions_head cpuCount) as (rest & ->). discriminate.
Qed.

Lemma no_param_token_for_none (p : string -> bool) (flag : string)
    (c : PytestConfig) (f : option string) :
  last_match p (encode c) = param_token flag f ->
  f = Some "none" -> existsb p (encode c) = false.
Proof.
  intros H ->. apply (no_token_of_field p c _ H). reflexivity.
Qed.

Ltac not_offered v E Hnot :=
  unfold load;
  cbn [html_of_config select_tb select_browser select_tracing select_video
       value_tb value_browser value_tracing value_video
       offered map fst] in Hnot |- *;
  rewrite E; unfold select_value; cbn [strict_eq is_undefined];
  enumerate_value v; [simpl in Hnot; tauto ..|reflexivity].

(** X15.  A stored parameter value that its select box does not offer is
    shown as [none], and the token list the script then posts has no token
    for that parameter: the stored value is lost with the next change made
    in the panel. *)
Theorem not_offered_value_is_reset (cpuCount : nat) (c : PytestConfig)
    (v : string) :
  let html := html_of_config cpuCount c in
  let saved := encode (updateConfig (load html)) in
  (tb c = Some v -> ~ In v (offered (select_tb html)) ->
     value_tb (load html) = "none" /\ existsb is_tb saved = false)
  /\ (numprocesses c = Some v -> ~ In v (offered (select_numprocesses html)) ->
        value_numprocesses (load html) = "none"
        /\ existsb is_numprocesses saved = false)
  /\ (browser c = Some v -> ~ In v (offered (select_browser html)) ->
        value_browser (load html) = "none"
        /\ existsb is_browser saved = false)
  /\ (tracing c = Some v -> ~ In v (offered (select_tracing html)) ->
        value_tracing (load html) = "none"
        /\ existsb is_tracing saved = false)
  /\ (video c = Some v -> ~ In v (offered (select_video html)) ->
        value_video (load html) = "none" /\ existsb is_video saved = false).
Proof.
  intros html saved.
  assert (Htb : tb c = Some v -> ~ In v (offered (select_tb html)) ->
                value_tb (load html) = "none").
  { intros E Hnot. subst html. not_offered v E Hnot. }
  assert (Hnp : numprocesses c = Some v ->
                ~ In v (offered (select_numprocesses html)) ->
                value_numprocesses (load html) = "none").
  { intros E Hnot. subst html. rewrite offered_numprocesses in Hnot.
    unfold load. cbn [value_numprocesses html_of_config select_numprocesses].
    rewrite E. destruct (getProcessOptions_head cpuCount) as (rest & R).
    rewrite R in *.
    apply (select_value_unmarked
             (fun o => ((o =? "none") && is_undefined (Some v))
                       || strict_eq (Some v) o)).
    intros o Ho. simpl. rewrite andb_false_r. simpl.
    apply String.eqb_neq. intros ->. contradiction. }
  assert (Hbr : browser c = Some v -> ~ In v (offered (select_browser html)) ->
                value_browser (load html) = "none").
  { intros E Hnot. subst html. not_offered v E Hnot. }
  assert (Htr : tracing c = Some v -> ~ In v (offered (select_tracing html)) ->
                value_tracing (load html) = "none").
  { intros E Hnot. subst html. not_offered v E Hnot. }
  assert (Hvi : video c = Some v -> ~ In v (offered (select_video html)) ->
                value_video (load html) = "none").
  { intros E Hnot. subst html. not_offered v E Hnot. }
  repeat split; auto; subst saved.
  - eapply no_param_token_for_none; [apply encode_tb_token|].
    simpl. f_equal. auto.
  - eapply no_param_token_for_none; [apply encode_numprocesses_token|].
    simpl. f_equal. auto.
  - eapply no_param_token_for_none; [apply encode_browser_token|].
    simpl. f_equal. auto.
  - eapply no_param_token_for_none; [apply encode_tracing_token|].
    simpl. f_equal. auto.
  - eapply no_param_token_for_none; [apply encode_video_token|].
    simpl. f_equal. auto.
Qed.

Lemma not_offered_value_is_reset_witness :
  tb (decode stale_args) = Some "line"
  /\ ~ In "line" (offered (select_tb (html_of_config 2 (decode stale_args))))
  /\ value_tb (load (html_of_config 2 (decode stale_args))) = "none"
  /\ existsb is_tb
       (encode (updateConfig (load (html_of_config 2 (decode stale_args)))))
     = false.
Proof.
  assert (E : tb (decode stale_args) = Some "line") by reflexivity.
  assert (N : ~ In "line"
                (offered (select_tb (html_of_config 2 (decode stale_args))))).
  { simpl. intuition discriminate. }
  split; [exact E|]. split; [exact N|].
  exact (proj1 (not_offered_value_is_reset 2 (decode stale_args) "line") E N).
Defined.

Lemma flag_token_truthy (flag : string) (f : option bool) :
  flag_token flag (Some (truthy_bool f)) = flag_token flag f.
Proof. now destruct f as [[|]|]. Qed.

Ltac shown_value f H :=
  cbn [updateConfig load html_of_config tb verbosity browser tracing video
       value_tb value_verbosity value_browser value_tracing value_video
       select_tb select_verbosity select_browser select_tracing select_video];
  destruct f as [?v|]; [|reflexivity];
  unfold shows in H; cbn [absent_or] in H;
  apply one_of_In in H; simpl in H;
  repeat (destruct H as [<-|H]; [reflexivity|]); contradiction.

Lemma numprocesses_value_shown (cpuCount : nat) (c : PytestConfig) :
  shows (select_numprocesses (html_of_config cpuCount c)) (numprocesses c)
  = true ->
  value_numprocesses (load (html_of_config cpuCount c))
  = match numprocesses c with Some v => v | None => "none" end.
Proof.
  unfold shows. rewrite offered_numprocesses.
  unfold load. cbn [value_numprocesses html_of_config select_numprocesses].
  intros H.
  apply (select_value_marked
           (fun o => ((o =? "none") && is_undefined (numprocesses c))
                     || strict_eq (numprocesses c) o)).
  - apply numprocesses_mark_unique.
  - destruct (numprocesses c) as [v|]; simpl; [|reflexivity].
    rewrite String.eqb_refl. apply orb_true_r.
  - destruct (numprocesses c) as [v|]; simpl in H.
    + now apply one_of_In.
    + destruct (getProcessOptions_head cpuCount) as (rest & ->). now left.
Qed.

(** X16.  When every select box has an entry for the stored value of its
    field, posting the form as loaded, without touching it, saves the same
    token list as encoding the stored configuration. *)
Theorem untouched_form_saves_canonical (cpuCount : nat) (c : PytestConfig) :
  let html := html_of_config cpuCount c in
  shows (select_tb html) (tb c) = true ->
  shows (select_numprocesses html) (numprocesses c) = true ->
  shows (select_verbosity html) (verbosity c) = true ->
  shows (select_browser html) (browser c) = true ->
  shows (select_tracing html) (tracing c) = true ->
  shows (select_video html) (video c) = true ->
  encode (updateConfig (load html)) = encode c.
Proof.
  intros html Htb Hnp Hvb Hbr Htr Hvi.
  rewrite !encode_eq_spec. unfold encode_spec, field_tokens.
  assert (E1 : param_token "--tb=" (tb (updateConfig (load html)))
               = param_token "--tb=" (tb c)).
  { subst html. shown_value (tb c) Htb. }
  assert (E2 : param_token "--numprocesses="
                 (numprocesses (updateConfig (load html)))
               = param_token "--numprocesses=" (numprocesses c)).
  { subst html. cbn [updateConfig numprocesses].
    rewrite (numprocesses_value_shown cpuCount c Hnp).
    now destruct (numprocesses c). }
  assert (E3 : verbosity_token (verbosity (updateConfig (load html)))
               = verbosity_token (verbosity c)).
  { subst html. shown_value (verbosity c) Hvb. }
  assert (E4 : param_token "--browser=" (browser (updateConfig (load html)))
               = param_token "--browser=" (browser c)).
  { subst html. shown_value (browser c) Hbr. }
  assert (E5 : param_token "--tracing=" (tracing (updateConfig (load html)))
               = param_token "--tracing=" (tracing c)).
  { subst html. shown_value (tracing c) Htr. }
  assert (E6 : param_token "--video=" (video (updateConfig (load html)))
               = param_token "--video=" (video c)).
  { subst html. shown_value (video c) Hvi. }
  rewrite E1, E2, E3, E4, E5, E6.
  subst html.
  cbn [updateConfig load html_of_config captureOutput showlocals headed delve
       slowmo checked_captureOutput checked_showlocals checked_headed
       checked_delve checked_slowmo checkbox_captureOutput checkbox_showlocals
       checkbox_headed checkbox_delve checkbox_slowmo].
  now rewrite !flag_token_truthy.
Qed.

Lemma untouched_form_saves_canonical_witness :
  shows (select_numprocesses (html_of_config 4 (decode shown_args)))
    (numprocesses (decode shown_args)) = true
  /\ encode (updateConfig (load (html_of_config 4 (decode shown_args))))
     = encode (decode shown_args).
Proof.
  split; [reflexivity|].
  apply (untouched_form_saves_canonical 4 (decode shown_args)); reflexivity.
Defined.

